(** * Function-calling voice agent: tools, router contract and LLM module

    A shallow embedding of [tools.py] and [llm_with_functions.py], and of
    the two modules they import without their sources being at hand: the
    function router and the conversation manager, both modelled from the
    specification.

    Python strings are [string]s over code points below 256. A Python
    call that may raise is a computation in an error monad, [try]/[except]
    selecting its clause by the class hierarchy as Python does, up to
    [BaseException]: [SystemExit] and [KeyboardInterrupt] are not instances
    of [Exception] and pass an [except Exception] clause. The shared
    conversation manager
    is threaded through [generate] as the list of its messages. Libraries
    and services (sympy, the JSON decoder, the HTTP calls) are parameters
    that may return or raise. Console output is left out.

    The definitions come first: the two source modules, the collaborators,
    concrete stand-ins to run them, and the vocabulary of the statements.
    The properties follow, module by module. *)

From Stdlib Require Import String Ascii List Bool Arith Lia.
From Stdlib Require Import DecimalString.
Import ListNotations.
Local Open Scope string_scope.

(** ** Python strings *)

Module PyStr.

Definition nl : string := String (ascii_of_nat 10) EmptyString.
Definition dq : string := String (ascii_of_nat 34) EmptyString.

(** [q s] is [s] between two double-quote characters. *)
Definition q (s : string) : string := dq ++ s ++ dq.

Definition str_of_nat (n : nat) : string :=
  NilEmpty.string_of_uint (Nat.to_uint n).

(** [s.startswith(p)] *)
Definition startswith (s p : string) : bool := prefix p s.

(** [s[n:]] *)
Fixpoint drop (n : nat) (s : string) : string :=
  match n, s with
  | O, _ => s
  | S k, EmptyString => EmptyString
  | S k, String _ rest => drop k rest
  end.

(** [c.isspace()] for a code point below 256. *)
Definition isspace (c : ascii) : bool :=
  let n := nat_of_ascii c in
  (((9 <=? n) && (n <=? 13)) || ((28 <=? n) && (n <=? 32))
   || (n =? 133) || (n =? 160))%nat.

Fixpoint lstrip (s : string) : string :=
  match s with
  | EmptyString => EmptyString
  | String c rest => if isspace c then lstrip rest else s
  end.

Fixpoint rstrip (s : string) : string :=
  match s with
  | EmptyString => EmptyString
  | String c rest =>
      match rstrip rest with
      | EmptyString => if isspace c then EmptyString else String c EmptyString
      | r => String c r
      end
  end.

(** [s.strip()] *)
Definition strip (s : string) : string := rstrip (lstrip s).

(** [s.replace(old, new)] for a non-empty [old]: the occurrences of [old]
    are found scanning left to right without overlap; [skip] counts the
    characters of the current occurrence that are still to be dropped. *)
Fixpoint replace_from (old new : string) (skip : nat) (s : string) : string :=
  match s with
  | EmptyString => EmptyString
  | String c rest =>
      match skip with
      | S k => replace_from old new k rest
      | O =>
          if prefix old s
          then new ++ replace_from old new (String.length old - 1) rest
          else String c (replace_from old new 0 rest)
      end
  end.

Definition replace (old new s : string) : string := replace_from old new 0 s.

(** [needle in hay] *)
Fixpoint contains (needle hay : string) : bool :=
  prefix needle hay ||
  match hay with
  | EmptyString => false
  | String _ rest => contains needle rest
  end.

(** [hay.count(needle)] for a non-empty [needle]. *)
Fixpoint count_from (needle : string) (skip : nat) (hay : string) : nat :=
  match hay with
  | EmptyString => 0
  | String _ rest =>
      match skip with
      | S k => count_from needle k rest
      | O =>
          if prefix needle hay
          then S (count_from needle (String.length needle - 1) rest)
          else count_from needle 0 rest
      end
  end.

Definition count (needle hay : string) : nat := count_from needle 0 hay.

(** [sep.join(parts)] *)
Fixpoint join (sep : string) (parts : list string) : string :=
  match parts with
  | [] => EmptyString
  | [p] => p
  | p :: rest => p ++ sep ++ join sep rest
  end.

(** [needle] occurs in [hay] as a contiguous substring. *)
Definition substring_of (needle hay : string) : Prop :=
  exists pre post, hay = pre ++ needle ++ post.

End PyStr.
Import PyStr.

(** ** Python exceptions *)

Module PyExc.

(** The exception classes the two modules raise, catch or let through. *)
Inductive exception_class :=
| Exception
| ValueError
| TypeError
| AttributeError
| SympifyError
| OSError
| RequestException
| HTTPError
| ConnectionError
| Timeout
| ConnectTimeout
| ReadTimeout
| DuplicateNameError
| UnknownToolError
| MissingArgumentError
| BaseException
| SystemExit
| KeyboardInterrupt.

Definition exception_class_eq_dec (a b : exception_class) : {a = b} + {a <> b}.
Proof. decide equality. Defined.

(** Method resolution order: the class itself and all its superclasses.
    [SympifyError] derives from [ValueError]; the [requests] exceptions
    derive from [RequestException], itself an [OSError]; [ConnectTimeout]
    derives from both [ConnectionError] and [Timeout]; the three errors of
    the tool registry and the dispatcher derive from [Exception].
    [Exception] derives from [BaseException], and so do [SystemExit] and
    [KeyboardInterrupt], which are not instances of [Exception]. *)
Definition mro (c : exception_class) : list exception_class :=
  match c with
  | Exception => [Exception; BaseException]
  | ValueError => [ValueError; Exception; BaseException]
  | TypeError => [TypeError; Exception; BaseException]
  | AttributeError => [AttributeError; Exception; BaseException]
  | SympifyError => [SympifyError; ValueError; Exception; BaseException]
  | OSError => [OSError; Exception; BaseException]
  | RequestException => [RequestException; OSError; Exception; BaseException]
  | HTTPError => [HTTPError; RequestException; OSError; Exception; BaseException]
  | ConnectionError =>
      [ConnectionError; RequestException; OSError; Exception; BaseException]
  | Timeout => [Timeout; RequestException; OSError; Exception; BaseException]
  | ConnectTimeout =>
      [ConnectTimeout; ConnectionError; Timeout; RequestException; OSError;
       Exception; BaseException]
  | ReadTimeout =>
      [ReadTimeout; Timeout; RequestException; OSError; Exception;
       BaseException]
  | DuplicateNameError => [DuplicateNameError; Exception; BaseException]
  | UnknownToolError => [UnknownToolError; Exception; BaseException]
  | MissingArgumentError => [MissingArgumentError; Exception; BaseException]
  | BaseException => [BaseException]
  | SystemExit => [SystemExit; BaseException]
  | KeyboardInterrupt => [KeyboardInterrupt; BaseException]
  end.

Definition issubclass (c parent : exception_class) : bool :=
  existsb (fun k => if exception_class_eq_dec k parent then true else false)
          (mro c).

Record exception := mk_exception {
  exc_class : exception_class;
  exc_str : string          (* [str(e)] *)
}.

Definition isinstance (e : exception) (c : exception_class) : bool :=
  issubclass (exc_class e) c.

(** A computation either returns a value or raises. *)
Inductive result (A : Type) :=
| Return (a : A)
| Raise (e : exception).
Arguments Return {A} a.
Arguments Raise {A} e.

Definition bind {A B} (c : result A) (k : A -> result B) : result B :=
  match c with
  | Return a => k a
  | Raise e => Raise e
  end.

(** [try: body / except c1 as e: h1 / except c2 as e: h2 ...]: the first
    clause whose class the exception is an instance of handles it; with no
    such clause the exception propagates. *)
Fixpoint handle {A} (e : exception)
         (clauses : list (exception_class * (exception -> result A)))
  : result A :=
  match clauses with
  | [] => Raise e
  | (c, h) :: rest => if isinstance e c then h e else handle e rest
  end.

Definition try_except {A} (body : result A)
           (clauses : list (exception_class * (exception -> result A)))
  : result A :=
  match body with
  | Return a => Return a
  | Raise e => handle e clauses
  end.

(** [try: body / except: handler] (a bare [except]). *)
Definition try_bare {A} (body : result A) (handler : result A) : result A :=
  match body with
  | Return a => Return a
  | Raise _ => handler
  end.

End PyExc.
Import PyExc.

Declare Scope py_scope.
Notation "x <- c ;; k" := (bind c (fun x => k))
  (at level 61, c at next level, right associativity) : py_scope.
Local Open Scope py_scope.

(** ** tools.py *)

Module Tools.

(** [get_tool_descriptions()] *)
Definition get_tool_descriptions (_ : unit) : string :=
  "Available tools:" ++ nl ++
  "1. search_arxiv(query: str) - Search arXiv for academic papers" ++ nl ++
  "   Example: {" ++ q "function" ++ ": " ++ q "search_arxiv" ++ ", " ++ q "arguments" ++ ": {" ++ q "query" ++ ": " ++ q "quantum computing" ++ "}}" ++ nl ++
  nl ++
  "2. calculate(expression: str) - Evaluate a mathematical expression" ++ nl ++
  "   Example: {" ++ q "function" ++ ": " ++ q "calculate" ++ ", " ++ q "arguments" ++ ": {" ++ q "expression" ++ ": " ++ q "2+2*3" ++ "}}" ++ nl ++
  EmptyString.

Section WithLibraries.

(** The [sympy] library: the type of its expressions, [sympify],
    [float(result.evalf())] and the two [str] conversions. Each call may
    raise. *)
Variable expr : Type.
Variable pyfloat : Type.
Variable sympify : string -> result expr.
Variable float_evalf : expr -> result pyfloat.
Variable str_float : pyfloat -> string.
Variable str_expr : expr -> result string.

(** The arXiv service: [requests.get] on the query endpoint for a search
    string, giving the status code and the content of the response, and the
    Atom entries of a content, each with the text of its title and of its
    summary. The XML parse raises on a malformed document and the lookup of
    a title or summary that is missing raises as well; nothing happens
    between the two that an exception could leave half done, so both are
    taken as one step. *)
Variable http_content : Type.
Variable arxiv_get : string -> result (nat * http_content).
Variable atom_entries : http_content -> result (list (string * string)).

(** The formatted lines of the entries, numbered from [i]. *)
Fixpoint format_entries (i : nat) (entries : list (string * string))
  : list string :=
  match entries with
  | [] => []
  | (title, summary) :: rest =>
      let title := strip title in
      let summary := strip summary in
      let summary_short :=
        if (150 <? String.length summary)%nat
        then substring 0 150 summary ++ "..."
        else summary in
      (str_of_nat i ++ ". " ++ title ++ nl ++ "   Summary: " ++ summary_short)
        :: format_entries (S i) rest
  end.

(** [search_arxiv(query)] *)
Definition search_arxiv (query : string) : result string :=
  try_except
    (response <- arxiv_get ("all:" ++ query) ;;
     if negb (fst response =? 200)%nat
     then Return ("Error: arXiv API returned status " ++ str_of_nat (fst response))
     else
       entries <- atom_entries (snd response) ;;
       match entries with
       | [] => Return ("No arXiv papers found for query: '" ++ query ++ "'")
       | _ =>
           let results := format_entries 1 entries in
           Return ("Found " ++ str_of_nat (List.length entries)
                   ++ " papers on arXiv:" ++ nl ++ nl
                   ++ join (nl ++ nl) results)
       end)
    [ (Timeout, fun e => Return "arXiv search timed out. Please try again.");
      (Exception, fun e => Return ("Error searching arXiv: " ++ exc_str e)) ].

(** The sanitising step of [calculate]. *)
Definition clean_expression (expression : string) : string :=
  replace "Math." EmptyString
    (replace "np." EmptyString
       (replace "numpy." EmptyString
          (replace "math." EmptyString expression))).

(** [calculate(expression)] *)
Definition calculate (expression : string) : result string :=
  try_except
    (let clean := clean_expression expression in
     result_ <- sympify clean ;;
     result_str <- try_bare
                     (numerical_result <- float_evalf result_ ;;
                      Return (str_float numerical_result))
                     (str_expr result_) ;;
     Return ("The result is: " ++ result_str))
    [ (SympifyError,
       fun e => Return ("Invalid mathematical expression: " ++ expression));
      (Exception,
       fun e => Return ("Error calculating expression: " ++ exc_str e)) ].

(** [AVAILABLE_TOOLS], a dict, in insertion order. *)
Definition AVAILABLE_TOOLS : list (string * (string -> result string)) :=
  [ ("search_arxiv", search_arxiv);
    ("calculate", calculate) ].

End WithLibraries.

Arguments search_arxiv {http_content}.
Arguments calculate {expr pyfloat}.
Arguments AVAILABLE_TOOLS {expr pyfloat} _ _ _ _ {http_content}.

End Tools.

(** ** The conversation history collaborator *)

Module Conversation.

Record message := mk_message {
  role : string;
  content : string
}.

(** Modelled from the spec: the module [conversation] that
    [llm_with_functions.py] imports is not among the sources. Its manager
    keeps an ordered sequence of [{role, content}] entries in insertion
    order, of unbounded growth; [add_user_message] and
    [add_assistant_message] append one entry and [get_history] reads the
    sequence. The role names are those of the stop sequences and of the
    closing [assistant:] of the prompt. *)
Definition history := list message.

Definition add_user_message (text : string) (h : history) : history :=
  (h ++ [mk_message "user" text])%list.

Definition add_assistant_message (text : string) (h : history) : history :=
  (h ++ [mk_message "assistant" text])%list.

Definition get_history (h : history) : list message := h.

End Conversation.

(** ** The function router *)

Module FunctionRouter.

(** A decoded structured value. A number keeps its lexeme. *)
#[warnings="-register-all"]
Inductive json :=
| JNull
| JBool (b : bool)
| JNumber (lexeme : string)
| JString (s : string)
| JArray (items : list json)
| JObject (fields : list (string * json)).

Record ParsedCall := mk_call {
  call_name : string;
  call_arguments : list (string * json)
}.

Record RouteResult := mk_route {
  text : string;
  was_call : bool
}.

Inductive semantic_type := Text | Number.

Record ToolParameter := mk_param {
  param_name : string;
  param_type : semantic_type;
  param_required : bool
}.

Record ToolDescriptor := mk_tool {
  tool_name : string;
  tool_parameters : list ToolParameter;
  tool_invoke : list (string * json) -> result string;
  tool_description : string
}.

Definition open_brace : ascii := ascii_of_nat 123.
Definition close_brace : ascii := ascii_of_nat 125.
Definition open_bracket : ascii := ascii_of_nat 91.
Definition close_bracket : ascii := ascii_of_nat 93.
Definition double_quote : ascii := ascii_of_nat 34.
Definition backslash : ascii := ascii_of_nat 92.

Definition prepend (c : ascii) (r : option string) : option string :=
  match r with
  | Some s => Some (String c s)
  | None => None
  end.

(** Modelled from the spec: step 1 of the extractor of [function_router]
    (a module absent from the sources), after the opening brace. [depth]
    counts the braces and brackets still open, [in_string] tells whether the
    scan is inside a string literal and [escaped] whether the previous
    character of that literal was a backslash. The balancing rule the
    specification leaves open is fixed here: inside a literal only an
    unescaped double quote is significant; outside, braces and brackets
    move one depth counter, and the scan ends at the closing brace that
    brings it to zero. A closing bracket that brings it to zero, or the end
    of the text, means there is no balanced closing brace. The result is
    the scanned text up to and including that brace. *)
Fixpoint scan_balanced (depth : nat) (in_string escaped : bool) (s : string)
  : option string :=
  match s with
  | EmptyString => None
  | String c rest =>
      if in_string then
        if escaped then prepend c (scan_balanced depth true false rest)
        else if Ascii.eqb c backslash
             then prepend c (scan_balanced depth true true rest)
        else if Ascii.eqb c double_quote
             then prepend c (scan_balanced depth false false rest)
        else prepend c (scan_balanced depth true false rest)
      else if Ascii.eqb c double_quote
           then prepend c (scan_balanced depth true false rest)
      else if Ascii.eqb c open_brace || Ascii.eqb c open_bracket
           then prepend c (scan_balanced (S depth) false false rest)
      else if Ascii.eqb c close_brace || Ascii.eqb c close_bracket
           then match depth with
                | 0 | 1 =>
                    if Ascii.eqb c close_brace
                    then Some (String c EmptyString)
                    else None
                | S d => prepend c (scan_balanced d false false rest)
                end
      else prepend c (scan_balanced depth false false rest)
  end.

(** Modelled from the spec: step 1 of the extractor, locating the first
    opening brace and isolating the balanced substring that starts there. *)
Fixpoint locate_marker (raw : string) : option string :=
  match raw with
  | EmptyString => None
  | String c rest =>
      if Ascii.eqb c open_brace
      then prepend c (scan_balanced 1 false false rest)
      else locate_marker rest
  end.

Fixpoint lookup_field (key : string) (fields : list (string * json))
  : option json :=
  match fields with
  | [] => None
  | (k, v) :: rest => if String.eqb k key then Some v else lookup_field key rest
  end.

Definition is_scalar (v : json) : bool :=
  match v with
  | JString _ | JNumber _ => true
  | _ => false
  end.

(** Modelled from the spec: steps 4 and 5 of the extractor. Both top-level
    keys must be present, the name a string and the arguments a flat mapping
    of scalars; the name is trimmed and the arguments are kept as they are. *)
Definition call_of_json (v : json) : option ParsedCall :=
  match v with
  | JObject fields =>
      match lookup_field "function" fields, lookup_field "arguments" fields with
      | Some (JString name), Some (JObject args) =>
          if forallb (fun kv => is_scalar (snd kv)) args
          then Some (mk_call (strip name) args)
          else None
      | _, _ => None
      end
  | _ => None
  end.

(** Modelled from the spec: [register] of the tool registry (section 4.1),
    which keeps the registration order and refuses a name already there. *)
Definition register (descriptor : ToolDescriptor)
           (tools : list ToolDescriptor) : result (list ToolDescriptor) :=
  if existsb (fun t => String.eqb (tool_name t) (tool_name descriptor)) tools
  then Raise (mk_exception DuplicateNameError (tool_name descriptor))
  else Return (tools ++ [descriptor])%list.

Section Router.

(** The structured-value parser (a JSON decoder), which raises on text
    that is not a well-formed value. *)
Variable parse_json : string -> result json.

(** The tool registry, in registration order. *)
Variable registry : list ToolDescriptor.

(** The wording of the user-facing error strings and the test for a
    numeric-looking string are not fixed by the specification. *)
Variable unknown_tool_message : string -> string.
Variable missing_argument_message : string -> string -> string.
Variable tool_failure_message : string -> exception -> string.
Variable numeric_looking : string -> bool.

(** Modelled from the spec: [extract] of [function_router] (section 4.2).
    A failure of the parser is caught and reported as no call found. *)
Definition extract (raw : string) : result (option ParsedCall) :=
  match locate_marker raw with
  | None => Return None
  | Some candidate =>
      try_bare
        (v <- parse_json candidate ;; Return (call_of_json v))
        (Return None)
  end.

(** Modelled from the spec: [lookup] of the tool registry (section 4.1). *)
Fixpoint lookup (tools : list ToolDescriptor) (name : string)
  : result ToolDescriptor :=
  match tools with
  | [] => Raise (mk_exception UnknownToolError name)
  | t :: rest =>
      if String.eqb (tool_name t) name then Return t else lookup rest name
  end.

Fixpoint check_required (params : list ToolParameter)
         (arguments : list (string * json)) : result unit :=
  match params with
  | [] => Return tt
  | p :: rest =>
      if param_required p
      then match lookup_field (param_name p) arguments with
           | Some _ => check_required rest arguments
           | None => Raise (mk_exception MissingArgumentError (param_name p))
           end
      else check_required rest arguments
  end.

Fixpoint type_of_argument (params : list ToolParameter) (name : string)
  : option semantic_type :=
  match params with
  | [] => None
  | p :: rest =>
      if String.eqb (param_name p) name then Some (param_type p)
      else type_of_argument rest name
  end.

Definition coerce (ty : option semantic_type) (v : json) : json :=
  match ty, v with
  | Some Number, JString s => if numeric_looking s then JNumber s else v
  | _, _ => v
  end.

Definition coerce_arguments (params : list ToolParameter)
           (arguments : list (string * json)) : list (string * json) :=
  map (fun kv => (fst kv, coerce (type_of_argument params (fst kv)) (snd kv)))
      arguments.

(** Modelled from the spec: [dispatch] of [function_router] (section 4.3):
    registry lookup, presence of the required arguments, coercion, and the
    tool invoked inside a failure boundary that catches any exception the
    tool body raises. *)
Definition dispatch (call : ParsedCall) : result string :=
  try_except
    (tool <- lookup registry (call_name call) ;;
     _ <- check_required (tool_parameters tool) (call_arguments call) ;;
     try_except
       (tool_invoke tool
          (coerce_arguments (tool_parameters tool) (call_arguments call)))
       [ (BaseException,
          fun e => Return (tool_failure_message (call_name call) e)) ])
    [ (UnknownToolError,
       fun e => Return (unknown_tool_message (call_name call)));
      (MissingArgumentError,
       fun e => Return (missing_argument_message (call_name call) (exc_str e))) ].

(** Modelled from the spec: [route] of [function_router] (section 4.4). *)
Definition route (raw_output : string) : result RouteResult :=
  found <- extract raw_output ;;
  match found with
  | None => Return (mk_route raw_output false)
  | Some call =>
      answer <- dispatch call ;;
      Return (mk_route answer true)
  end.

(** [route_llm_output], as its caller unpacks it: a pair. *)
Definition route_llm_output (llm_output : string) : result (string * bool) :=
  r <- route llm_output ;;
  Return (text r, was_call r).

End Router.

End FunctionRouter.

(** ** llm_with_functions.py *)

Module LLM.
Import Conversation.

(** The attributes [__init__] sets. *)
Record LLMModuleWithFunctions := mk_llm {
  model_name : string;
  ollama_url : string;
  api_endpoint : string
}.

Definition __init__ (model_name ollama_url : string)
  : LLMModuleWithFunctions :=
  mk_llm model_name ollama_url (ollama_url ++ "/api/generate").

(** The global instance, built with the default arguments. *)
Definition llm_module_with_functions : LLMModuleWithFunctions :=
  __init__ "llama3.2:1b" "http://localhost:11434".

(** [_build_system_prompt(self)] *)
Definition _build_system_prompt (self : LLMModuleWithFunctions) : string :=
  ("You are a helpful AI assistant." ++ nl ++
  nl ++
  "    RULES:" ++ nl ++
  "    1. ARITHMETIC: If the user asks clearly for a math calculation (e.g., " ++ q "calculate" ++ ", " ++ q "what is 5 + 5" ++ ", " ++ q "square root of..." ++ "), YOU MUST RESPONSE WITH A JSON tool call for 'calculate'." ++ nl ++
  "    2. RESEARCH: If the user asks to " ++ q "search arxiv" ++ " or " ++ q "find papers" ++ ", use 'search_arxiv'." ++ nl ++
  "    3. OTHER: For all other questions (capitals, jokes, history), respond normally in text. DO NOT use tools." ++ nl ++
  "    " ++ nl ++
  "    TOOL OUTPUT FORMAT:" ++ nl ++
  "    {" ++ q "function" ++ ": " ++ q "function_name" ++ ", " ++ q "arguments" ++ ": {" ++ q "arg_name" ++ ": " ++ q "arg_value" ++ "}}" ++ nl ++
  "    " ++ nl ++
  "    ")
  ++ Tools.get_tool_descriptions tt ++
  (nl ++
  "    " ++ nl ++
  "    Examples:" ++ nl ++
  "    User: " ++ q "Calculate 25 * 4" ++ nl ++
  "    Assistant: {" ++ q "function" ++ ": " ++ q "calculate" ++ ", " ++ q "arguments" ++ ": {" ++ q "expression" ++ ": " ++ q "25*4" ++ "}}" ++ nl ++
  "    " ++ nl ++
  "    User: " ++ q "What is the square root of 144?" ++ nl ++
  "    Assistant: {" ++ q "function" ++ ": " ++ q "calculate" ++ ", " ++ q "arguments" ++ ": {" ++ q "expression" ++ ": " ++ q "sqrt(144)" ++ "}}" ++ nl ++
  "    " ++ nl ++
  "    User: " ++ q "Find papers on quantum computing" ++ nl ++
  "    Assistant: {" ++ q "function" ++ ": " ++ q "search_arxiv" ++ ", " ++ q "arguments" ++ ": {" ++ q "query" ++ ": " ++ q "quantum computing" ++ "}}" ++ nl ++
  "    " ++ nl ++
  "    User: " ++ q "What is the capital of Canada?" ++ nl ++
  "    Assistant: The capital of Canada is Ottawa." ++ nl ++
  "    " ++ nl ++
  "    IMPORTANT: Do not explain your tools. Just use them if needed. If no tool is needed, just speak.").

(** [l[-n:]] for [n > 0]: the last [n] elements, or all of [l] when it has
    fewer. *)
Definition last_n {A} (n : nat) (l : list A) : list A :=
  skipn (List.length l - n) l.

(** The prompt [generate] constructs: the system prompt, then the loop over
    the window of the history extending [prompt], then the closing
    [assistant:]. *)
Definition build_prompt (self : LLMModuleWithFunctions)
           (history : list message) : string :=
  let prompt := _build_system_prompt self ++ nl ++ nl in
  let prompt :=
    fold_left (fun prompt turn =>
                 prompt ++ (role turn ++ ": " ++ content turn ++ nl))
              (last_n 10 history) prompt in
  prompt ++ "assistant:".

(** The loop that removes one echoed role prefix: the first prefix the
    output starts with is cut off and the rest stripped. *)
Fixpoint strip_role_prefix (prefixes : list string) (llm_output : string)
  : string :=
  match prefixes with
  | [] => llm_output
  | p :: rest =>
      if startswith llm_output p
      then strip (drop (String.length p) llm_output)
      else strip_role_prefix rest llm_output
  end.

Definition timeout_fallback : string :=
  "Sorry, that took too long. Try clearing history or asking a shorter question.".

Definition connection_fallback : string :=
  "I'm having trouble connecting to the language model. Please make sure Ollama is running.".

Section Generate.

(** [route_llm_output] of the absent module [function_router]. *)
Variable route_llm_output : string -> result (string * bool).

(** The backend: [requests.post] to the endpoint with the model name, the
    prompt and the fixed generation options, then [raise_for_status()] and
    [response.json()]. It returns the [response] field of the decoded
    body, if the body has one, or raises. *)
Variable post_generate : string -> string -> string -> result (option string).

(** [generate(self, user_text)], with the shared conversation manager
    threaded through. The history is extended once before the [try] and
    once at the end of each branch that returns; an exception that no
    clause catches leaves it as it was when the [try] was entered. *)
Definition generate (self : LLMModuleWithFunctions) (user_text : string)
           (conversation_manager : history) : result string * history :=
  let conversation_manager := add_user_message user_text conversation_manager in
  let history := get_history conversation_manager in
  let prompt := build_prompt self history in
  let body : result (string * Conversation.history) :=
    response <- post_generate (api_endpoint self) (model_name self) prompt ;;
    let llm_output :=
      strip (match response with Some r => r | None => EmptyString end) in
    let llm_output :=
      strip_role_prefix ["assistant:"; "Assistant:"; "ASSISTANT:"] llm_output in
    routed <- route_llm_output llm_output ;;
    let final_response := fst routed in
    Return (final_response,
            add_assistant_message final_response conversation_manager)
  in
  match body with
  | Return (final_response, conversation_manager') =>
      (Return final_response, conversation_manager')
  | Raise e =>
      if isinstance e Timeout then
        let fallback := timeout_fallback in
        (Return fallback, add_assistant_message fallback conversation_manager)
      else if isinstance e RequestException then
        let fallback := connection_fallback in
        (Return fallback, add_assistant_message fallback conversation_manager)
      else (Raise e, conversation_manager)
  end.

(** [generate_response_with_functions(user_text)] *)
Definition generate_response_with_functions (user_text : string)
           (conversation_manager : history) : result string * history :=
  generate llm_module_with_functions user_text conversation_manager.

End Generate.

End LLM.

(** ** Concrete collaborators

    Small stand-ins for the libraries and services the two modules call,
    used to run the definitions above on concrete inputs. *)

Module Scenario.
Import FunctionRouter.

Fixpoint paren_depth (d : nat) (s : string) : option nat :=
  match s with
  | EmptyString => Some d
  | String c rest =>
      if Ascii.eqb c "("%char then paren_depth (S d) rest
      else if Ascii.eqb c ")"%char
           then match d with
                | O => None
                | S k => paren_depth k rest
                end
      else paren_depth d rest
  end.

Fixpoint all_digits (s : string) : bool :=
  match s with
  | EmptyString => true
  | String c rest =>
      ((48 <=? nat_of_ascii c)%nat && (nat_of_ascii c <=? 57)%nat)
      && all_digits rest
  end.

(** A stand-in for [sympify]: an expression is its source text; an empty
    text or unbalanced parentheses raise [SympifyError], as they do in
    sympy. *)
Definition sympify (s : string) : result string :=
  match s with
  | EmptyString => Raise (mk_exception SympifyError "SympifyError")
  | _ =>
      match paren_depth 0 s with
      | Some O => Return s
      | _ => Raise (mk_exception SympifyError "SympifyError")
      end
  end.

(** A stand-in for [float(result.evalf())]: a natural-number literal
    converts, anything else is symbolic and raises [TypeError]. *)
Definition float_evalf (e : string) : result string :=
  match e with
  | EmptyString => Raise (mk_exception TypeError "Cannot convert expression to float")
  | _ =>
      if all_digits e then Return e
      else Raise (mk_exception TypeError "Cannot convert expression to float")
  end.

Definition str_float (x : string) : string := x ++ ".0".

Definition str_expr (e : string) : result string := Return e.

(** A stand-in for the arXiv service: it answers with status 200 and one
    paper, whatever the search. *)
Definition arxiv_get (search_query : string) : result (nat * unit) :=
  Return (200, tt).

Definition atom_entries (content : unit) : result (list (string * string)) :=
  Return [ ("  Quantum Computing: An Overview" ++ nl,
            "We give a short overview of quantum computing." ++ nl) ].

Definition search_arxiv : string -> result string :=
  Tools.search_arxiv arxiv_get atom_entries.

Definition calculate : string -> result string :=
  Tools.calculate sympify float_evalf str_float str_expr.

Definition AVAILABLE_TOOLS : list (string * (string -> result string)) :=
  Tools.AVAILABLE_TOOLS sympify float_evalf str_float str_expr
    arxiv_get atom_entries.

(** The text of a call marker with one string argument. *)
Definition marker (function argument value : string) : string :=
  "{" ++ q "function" ++ ": " ++ q function ++ ", " ++ q "arguments"
  ++ ": {" ++ q argument ++ ": " ++ q value ++ "}}".

Definition marker_value (function argument value : string) : json :=
  JObject [ ("function", JString function);
            ("arguments", JObject [ (argument, JString value) ]) ].

Definition no_arguments_marker : string :=
  "{" ++ q "function" ++ ": " ++ q "calculate" ++ ", " ++ q "arguments"
  ++ ": {}}".

(** A stand-in for the JSON decoder that knows the markers of the example
    scenarios and raises on any other text. *)
Definition parse_table : list (string * json) :=
  [ (marker "calculate" "expression" "2+2",
     marker_value "calculate" "expression" "2+2");
    (marker "search_arxiv" "query" "quantum computing",
     marker_value "search_arxiv" "query" "quantum computing");
    (no_arguments_marker,
     JObject [ ("function", JString "calculate"); ("arguments", JObject []) ]);
    (marker "teleport" "to" "mars", marker_value "teleport" "to" "mars");
    (marker "calculate" "expression" "2/0",
     marker_value "calculate" "expression" "2/0") ].

Definition parse_json (s : string) : result json :=
  match lookup_field s parse_table with
  | Some v => Return v
  | None => Raise (mk_exception ValueError "JSONDecodeError")
  end.

(** Calling a function of one string parameter with the argument mapping
    unpacked as keyword arguments. *)
Definition keyword_call (parameter : string) (f : string -> result string)
           (arguments : list (string * json)) : result string :=
  match arguments with
  | [ (k, JString v) ] =>
      if String.eqb k parameter then f v
      else Raise (mk_exception TypeError "unexpected keyword argument")
  | _ => Raise (mk_exception TypeError "bad arguments")
  end.

(** A calculator that fails on a division by zero, to exercise the failure
    boundary of the dispatcher. *)
Definition failing_calculate (expression : string) : result string :=
  if String.eqb expression "2/0"
  then Raise (mk_exception ValueError "division by zero")
  else calculate expression.

Definition registry : list ToolDescriptor :=
  [ mk_tool "search_arxiv" [ mk_param "query" Text true ]
            (keyword_call "query" search_arxiv)
            "Search arXiv for academic papers";
    mk_tool "calculate" [ mk_param "expression" Text true ]
            (keyword_call "expression" failing_calculate)
            "Evaluate a mathematical expression" ].

Definition unknown_tool_message (name : string) : string :=
  "Sorry, I don't know a tool named " ++ name ++ ".".

Definition missing_argument_message (name argument : string) : string :=
  "Sorry, the call to " ++ name ++ " is missing the argument " ++ argument ++ ".".

Definition tool_failure_message (name : string) (e : exception) : string :=
  "Sorry, " ++ name ++ " failed: " ++ exc_str e.

Definition numeric_looking (s : string) : bool :=
  match s with
  | EmptyString => false
  | _ => all_digits s
  end.

Definition extract : string -> result (option ParsedCall) :=
  FunctionRouter.extract parse_json.

Definition dispatch : ParsedCall -> result string :=
  FunctionRouter.dispatch registry unknown_tool_message
    missing_argument_message tool_failure_message numeric_looking.

Definition route : string -> result RouteResult :=
  FunctionRouter.route parse_json registry unknown_tool_message
    missing_argument_message tool_failure_message numeric_looking.

Definition route_llm_output : string -> result (string * bool) :=
  FunctionRouter.route_llm_output parse_json registry unknown_tool_message
    missing_argument_message tool_failure_message numeric_looking.

(** Three backends: one that answers with a call marker, one that times
    out and one that cannot connect. *)
Definition backend_answers (endpoint model prompt : string)
  : result (option string) :=
  Return (Some ("assistant: " ++ marker "calculate" "expression" "2+2" ++ nl)).

Definition backend_times_out (endpoint model prompt : string)
  : result (option string) :=
  Raise (mk_exception ReadTimeout "Read timed out. (read timeout=120)").

Definition backend_unreachable (endpoint model prompt : string)
  : result (option string) :=
  Raise (mk_exception ConnectionError "Connection refused").

(** Twelve messages, of which the prompt shows the last ten. *)
Definition twelve_messages : list Conversation.message * list Conversation.message :=
  ([ Conversation.mk_message "user" "one"; Conversation.mk_message "assistant" "two" ],
   [ Conversation.mk_message "user" "three"; Conversation.mk_message "assistant" "four";
     Conversation.mk_message "user" "five"; Conversation.mk_message "assistant" "six";
     Conversation.mk_message "user" "seven"; Conversation.mk_message "assistant" "eight";
     Conversation.mk_message "user" "nine"; Conversation.mk_message "assistant" "ten";
     Conversation.mk_message "user" "eleven"; Conversation.mk_message "assistant" "twelve" ]).

End Scenario.

(** ** Specification-side definitions *)

Module Catalogue.

(** What the catalogue says about one tool: its name, its parameters with
    their types, a one-line summary and the arguments of its example. *)
Record ToolDoc := mk_doc {
  doc_name : string;
  doc_parameters : list (string * string);
  doc_summary : string;
  doc_example : list (string * string)
}.

Definition render_signature (d : ToolDoc) : string :=
  doc_name d ++ "("
  ++ join ", " (map (fun p => fst p ++ ": " ++ snd p) (doc_parameters d))
  ++ ")".

Definition render_example (d : ToolDoc) : string :=
  "{" ++ q "function" ++ ": " ++ q (doc_name d) ++ ", " ++ q "arguments"
  ++ ": {"
  ++ join ", " (map (fun kv => q (fst kv) ++ ": " ++ q (snd kv)) (doc_example d))
  ++ "}}".

Definition render_entry (i : nat) (d : ToolDoc) : string :=
  str_of_nat i ++ ". " ++ render_signature d ++ " - " ++ doc_summary d ++ nl
  ++ "   Example: " ++ render_example d ++ nl.

Fixpoint render_entries (i : nat) (docs : list ToolDoc) : list string :=
  match docs with
  | [] => []
  | d :: rest => render_entry i d :: render_entries (S i) rest
  end.

(** Modelled from the spec: [describe_all] of the tool registry (section
    4.1), a catalogue in registration order of name, parameter summary and
    one example invocation per tool. The sources have no such function;
    this one is the specification's, to be compared with the literal of
    [get_tool_descriptions]. *)
Definition describe_all (docs : list ToolDoc) : string :=
  "Available tools:" ++ nl ++ join nl (render_entries 1 docs).

(** The two tools of [tools.py], with the signatures of their definitions. *)
Definition tool_docs : list ToolDoc :=
  [ mk_doc "search_arxiv" [ ("query", "str") ]
           "Search arXiv for academic papers"
           [ ("query", "quantum computing") ];
    mk_doc "calculate" [ ("expression", "str") ]
           "Evaluate a mathematical expression"
           [ ("expression", "2+2*3") ] ].

End Catalogue.

Module CalculateMessages.

(** The string [calculate] returns when the exception [e] ends the
    evaluation of [expression]: the text of the first [except] clause for
    an instance of [SympifyError], of the second for any other. *)
Definition error_message (expression : string) (e : exception) : string :=
  if isinstance e SympifyError
  then "Invalid mathematical expression: " ++ expression
  else "Error calculating expression: " ++ exc_str e.

(** What [calculate] makes of the exception [e] that ends the evaluation
    of [expression]: an instance of [Exception] is turned into its message
    and returned, any other exception passes both [except] clauses. *)
Definition reported (expression : string) (e : exception) : result string :=
  if isinstance e Exception
  then Return (error_message expression e)
  else Raise e.

End CalculateMessages.

(** Vocabulary for the prompt and the turns of [generate]. *)

Module PromptLayout.
Import Conversation.

(** The line of the prompt for one turn of the history. *)
Definition render_turn (turn : message) : string :=
  role turn ++ ": " ++ content turn ++ nl.

(** The history section of a prompt showing [turns]: their lines, in
    order. *)
Definition render_history (turns : list message) : string :=
  fold_right (fun turn text => render_turn turn ++ text) EmptyString turns.

(** The text [generate] hands to the router for a decoded backend body:
    the [response] field, or the empty string without one, stripped and
    freed of one echoed role prefix. *)
Definition routed_text (response : option string) : string :=
  LLM.strip_role_prefix ["assistant:"; "Assistant:"; "ASSISTANT:"]
    (strip (match response with Some r => r | None => EmptyString end)).

End PromptLayout.

(** Vocabulary for the texts the extractor is given. *)

Module Markers.
Import FunctionRouter.

(** [raw] has a substring that starts with an opening brace and ends with
    a closing brace. *)
Definition braced_substring (raw : string) : Prop :=
  exists a b c, raw = a ++ "{" ++ b ++ "}" ++ c.

(** The text that follows the first opening brace of [raw]. *)
Fixpoint after_open_brace (raw : string) : option string :=
  match raw with
  | EmptyString => None
  | String c rest =>
      if Ascii.eqb c open_brace then Some rest else after_open_brace rest
  end.

(** A decision procedure for [braced_substring]: some closing brace
    follows the first opening brace. *)
Definition has_braced_substring (raw : string) : bool :=
  match after_open_brace raw with
  | Some rest => contains "}" rest
  | None => false
  end.

Definition is_opener (c : ascii) : bool :=
  Ascii.eqb c open_brace || Ascii.eqb c open_bracket.

Definition is_closer (c : ascii) : bool :=
  Ascii.eqb c close_brace || Ascii.eqb c close_bracket.

(** The characters of [s] that stand outside string literals, the
    delimiting quotes left out; [in_string] and [escaped] are as in
    [scan_balanced]. *)
Fixpoint outside_literals (in_string escaped : bool) (s : string) : string :=
  match s with
  | EmptyString => EmptyString
  | String c rest =>
      if in_string then
        if escaped then outside_literals true false rest
        else if Ascii.eqb c backslash then outside_literals true true rest
        else if Ascii.eqb c double_quote then outside_literals false false rest
        else outside_literals true false rest
      else if Ascii.eqb c double_quote then outside_literals true false rest
      else String c (outside_literals false false rest)
  end.

Fixpoint count_chars (f : ascii -> bool) (s : string) : nat :=
  match s with
  | EmptyString => 0
  | String c rest => (if f c then 1 else 0) + count_chars f rest
  end.

Fixpoint prefixes (s : string) : list string :=
  EmptyString ::
  match s with
  | EmptyString => []
  | String c rest => map (String c) (prefixes rest)
  end.

(** The braces of a marker whose opening brace is followed by [body] are
    unbalanced, the opening brace never being closed: at no point of [body]
    do the closing braces and brackets outside string literals outnumber
    the opening ones. *)
Definition never_closed (body : string) : bool :=
  forallb (fun p => count_chars is_closer p <=? count_chars is_opener p)%nat
          (prefixes (outside_literals false false body)).

(** [open_above d t]: scanning [t] from depth [d], the depth stays
    positive. *)
Definition open_above (d : nat) (t : string) : Prop :=
  forall p, In p (prefixes t) ->
            count_chars is_closer p < d + count_chars is_opener p.

End Markers.

(** Further stand-ins: services and backends in their failing and edge
    cases. *)

Module Situations.

Fixpoint repeat_string (n : nat) (s : string) : string :=
  match n with
  | O => EmptyString
  | S k => s ++ repeat_string k s
  end.


(** An arXiv service interrupted from the keyboard while it waits. *)
Definition arxiv_interrupted (search_query : string) : result (nat * unit) :=
  Raise (mk_exception KeyboardInterrupt EmptyString).

(** An arXiv service that answers with an error status. *)
Definition arxiv_unavailable (search_query : string) : result (nat * unit) :=
  Return (503, tt).

(** An arXiv service that does not answer in time. *)
Definition arxiv_times_out (search_query : string) : result (nat * unit) :=
  Raise (mk_exception ReadTimeout "Read timed out. (read timeout=10)").

(** A content that is not well-formed XML. *)
Definition malformed_content (content : unit)
  : result (list (string * string)) :=
  Raise (mk_exception Exception "syntax error: line 1, column 0").

(** Two papers, the second with a summary of 200 characters. *)
Definition two_papers (content : unit) : result (list (string * string)) :=
  Return [ ("  Quantum Computing: An Overview" ++ nl,
            "We give a short overview of quantum computing." ++ nl);
           ("Entanglement", repeat_string 40 "word ") ].

(** A backend whose body is not a JSON object: [result.get] raises. *)
Definition backend_answers_list (endpoint model prompt : string)
  : result (option string) :=
  Raise (mk_exception AttributeError "'list' object has no attribute 'get'").

(** A backend whose body holds [null] as its response: [strip] is called
    on [None] and raises. *)
Definition backend_null_response (endpoint model prompt : string)
  : result (option string) :=
  Raise (mk_exception AttributeError
           "'NoneType' object has no attribute 'strip'").

(** A backend whose body has no [response] field. *)
Definition backend_without_response (endpoint model prompt : string)
  : result (option string) :=
  Return None.

(** A backend that echoes the role before its answer. *)
Definition backend_echoes_role (endpoint model prompt : string)
  : result (option string) :=
  Return (Some ("  Assistant: The capital of Canada is Ottawa." ++ nl)).

(** A router that reports every text as plain. *)
Definition plain_router (llm_output : string) : result (string * bool) :=
  Return (llm_output, false).

(** A router that strips the text before reporting it as plain. *)
Definition stripping_router (llm_output : string) : result (string * bool) :=
  Return (strip llm_output, false).

(** A router in which a tool lets a timeout of its own escape. *)
Definition router_times_out (llm_output : string) : result (string * bool) :=
  Raise (mk_exception ReadTimeout "Read timed out. (read timeout=10)").

(** A router that fails on a programming error. *)
Definition router_breaks (llm_output : string) : result (string * bool) :=
  Raise (mk_exception TypeError "unexpected keyword argument").

End Situations.

(** * Properties *)

(** ** Strings *)

Module PyStrFacts.

Lemma append_assoc (a b c : string) : (a ++ b) ++ c = a ++ b ++ c.
Proof. induction a as [|x a IH]; simpl; [reflexivity | now rewrite IH]. Qed.

Lemma append_nil_r (a : string) : a ++ EmptyString = a.
Proof. induction a as [|x a IH]; simpl; [reflexivity | now rewrite IH]. Qed.

Lemma prefix_split (p s : string) :
  prefix p s = true -> exists post, s = p ++ post.
Proof.
  revert s. induction p as [|a p IH]; intros s H.
  - exists s. reflexivity.
  - destruct s as [|b s]; simpl in H; [discriminate|].
    destruct (ascii_dec a b) as [->|]; [|discriminate].
    destruct (IH s H) as [post ->]. exists post. reflexivity.
Qed.

Lemma prefix_append (p s : string) : prefix p (p ++ s) = true.
Proof.
  induction p as [|a p IH]; simpl; [now destruct s|].
  destruct (ascii_dec a a); [assumption | congruence].
Qed.

Lemma contains_sound (needle hay : string) :
  contains needle hay = true -> substring_of needle hay.
Proof.
  induction hay as [|c hay IH]; intros H; cbn [contains] in H.
  - apply orb_true_iff in H as [H|H]; [|discriminate].
    destruct (prefix_split _ _ H) as [post E].
    exists EmptyString, post. exact E.
  - apply orb_true_iff in H as [H|H].
    + destruct (prefix_split _ _ H) as [post E].
      exists EmptyString, post. exact E.
    + destruct (IH H) as (pre & post & E).
      exists (String c pre), post. simpl. now rewrite E.
Qed.

Lemma contains_cons_false (needle : string) (c : ascii) (hay : string) :
  contains needle (String c hay) = false ->
  prefix needle (String c hay) = false /\ contains needle hay = false.
Proof. cbn [contains]. intros H. now apply orb_false_iff in H. Qed.

(** A text in which [old] does not occur is left as it is. *)
Lemma replace_absent (old new s : string) :
  contains old s = false -> replace old new s = s.
Proof.
  unfold replace. induction s as [|c s IH]; intros H; [reflexivity|].
  apply contains_cons_false in H as [Hp Hc].
  cbn [replace_from]. rewrite Hp, (IH Hc). reflexivity.
Qed.

(** The characters still to be dropped are dropped. *)
Lemma replace_from_skip (old new t s : string) :
  replace_from old new (String.length t) (t ++ s) = replace_from old new 0 s.
Proof. induction t as [|c t IH]; simpl; [reflexivity | exact IH]. Qed.

(** A leading occurrence of [old] is replaced and the scan resumes right
    after it. *)
Lemma replace_leading (a : ascii) (old new s : string) :
  replace (String a old) new (String a old ++ s)
  = new ++ replace (String a old) new s.
Proof.
  unfold replace. cbn [append replace_from].
  change (String a (old ++ s)) with (String a old ++ s).
  rewrite prefix_append. cbn [String.length].
  replace (S (String.length old) - 1) with (String.length old) by lia.
  rewrite replace_from_skip. reflexivity.
Qed.

End PyStrFacts.

(** ** Exceptions *)

Module PyExcFacts.

Lemma isinstance_BaseException (e : exception) :
  isinstance e BaseException = true.
Proof. destruct e as [c m]; destruct c; reflexivity. Qed.

Lemma SympifyError_is_Exception (e : exception) :
  isinstance e SympifyError = true -> isinstance e Exception = true.
Proof. destruct e as [c m]; destruct c; simpl; intros H; (reflexivity || discriminate). Qed.

Lemma Timeout_is_Exception (e : exception) :
  isinstance e Timeout = true -> isinstance e Exception = true.
Proof. destruct e as [c m]; destruct c; simpl; intros H; (reflexivity || discriminate). Qed.

Lemma Timeout_is_RequestException (e : exception) :
  isinstance e Timeout = true -> isinstance e RequestException = true.
Proof. destruct e as [c m]; destruct c; simpl; intros H; (reflexivity || discriminate). Qed.

Lemma ConnectionError_is_RequestException (e : exception) :
  isinstance e ConnectionError = true -> isinstance e RequestException = true.
Proof. destruct e as [c m]; destruct c; simpl; intros H; (reflexivity || discriminate). Qed.

End PyExcFacts.

(** ** tools.py *)

Module ToolsFacts.
Import Tools Catalogue CalculateMessages PyStrFacts PyExcFacts.

Section Libraries.

Context {expr pyfloat http_content : Type}.
Variable sympify : string -> result expr.
Variable float_evalf : expr -> result pyfloat.
Variable str_float : pyfloat -> string.
Variable str_expr : expr -> result string.
Variable arxiv_get : string -> result (nat * http_content).
Variable atom_entries : http_content -> result (list (string * string)).

Local Abbreviation calculate :=
  (Tools.calculate sympify float_evalf str_float str_expr).
Local Abbreviation search_arxiv := (Tools.search_arxiv arxiv_get atom_entries).
Local Abbreviation AVAILABLE_TOOLS :=
  (Tools.AVAILABLE_TOOLS sympify float_evalf str_float str_expr
     arxiv_get atom_entries).

(** The result string of the inner [try]: the float when the numerical
    evaluation succeeds, the plain [str] otherwise. *)
Local Abbreviation result_string r :=
  (try_bare (x <- float_evalf r ;; Return (str_float x)) (str_expr r)).

Lemma calculate_evaluated expression r :
  sympify (clean_expression expression) = Return r ->
  calculate expression =
  match result_string r with
  | Return t => Return ("The result is: " ++ t)
  | Raise e => reported expression e
  end.
Proof.
  intros H. unfold Tools.calculate. rewrite H. cbn [bind].
  destruct (result_string r) as [t|e]; cbn [bind try_except handle];
    [reflexivity|].
  unfold reported, error_message.
  destruct (isinstance e SympifyError) eqn:E.
  - now rewrite (SympifyError_is_Exception e E).
  - now destruct (isinstance e Exception).
Qed.

Lemma calculate_rejected expression e :
  sympify (clean_expression expression) = Raise e ->
  calculate expression = reported expression e.
Proof.
  intros H. unfold Tools.calculate. rewrite H.
  cbn [bind try_except handle]. unfold reported, error_message.
  destruct (isinstance e SympifyError) eqn:E.
  - now rewrite (SympifyError_is_Exception e E).
  - now destruct (isinstance e Exception).
Qed.

(** C8: [get_tool_descriptions] returns the same string at every call;
    that string is the catalogue of the registered tools in registration
    order, each entry made of the tool's name, its parameter summary and
    one example invocation, and it holds exactly one example per
    registered tool. *)
Theorem get_tool_descriptions_catalogue :
  (forall call call' : unit,
      get_tool_descriptions call = get_tool_descriptions call')
  /\ map doc_name tool_docs = map fst AVAILABLE_TOOLS
  /\ get_tool_descriptions tt = describe_all tool_docs
  /\ count "Example: " (get_tool_descriptions tt) = List.length AVAILABLE_TOOLS.
Proof.
  repeat split.
Qed.


(** Each of the four module prefixes is removed from the front of an
    expression. *)
Lemma clean_expression_leading (p rest : string) :
  In p ["math."; "numpy."; "np."; "Math."] ->
  clean_expression (p ++ rest) = clean_expression rest.
Proof.
  unfold clean_expression.
  intros [<-|[<-|[<-|[<-|[]]]]].
  - now rewrite replace_leading.
  - change (replace "math." EmptyString ("numpy." ++ rest))
      with ("numpy." ++ replace "math." EmptyString rest).
    now rewrite replace_leading.
  - change (replace "math." EmptyString ("np." ++ rest))
      with ("np." ++ replace "math." EmptyString rest).
    change (replace "numpy." EmptyString
              ("np." ++ replace "math." EmptyString rest))
      with ("np." ++ replace "numpy." EmptyString
                       (replace "math." EmptyString rest)).
    now rewrite replace_leading.
  - change (replace "math." EmptyString ("Math." ++ rest))
      with ("Math." ++ replace "math." EmptyString rest).
    change (replace "numpy." EmptyString
              ("Math." ++ replace "math." EmptyString rest))
      with ("Math." ++ replace "numpy." EmptyString
                         (replace "math." EmptyString rest)).
    change (replace "np." EmptyString
              ("Math." ++ replace "numpy." EmptyString
                            (replace "math." EmptyString rest)))
      with ("Math." ++ replace "np." EmptyString
                         (replace "numpy." EmptyString
                            (replace "math." EmptyString rest))).
    now rewrite replace_leading.
Qed.

(** An expression in which none of the four prefixes occurs is evaluated
    as given. *)
Lemma clean_expression_unchanged (expression : string) :
  contains "math." expression = false ->
  contains "numpy." expression = false ->
  contains "np." expression = false ->
  contains "Math." expression = false ->
  clean_expression expression = expression.
Proof.
  intros H1 H2 H3 H4. unfold clean_expression.
  now rewrite (replace_absent _ _ _ H1), (replace_absent _ _ _ H2),
    (replace_absent _ _ _ H3), (replace_absent _ _ _ H4).
Qed.

Lemma calculate_same_sanitised (e1 e2 : string) :
  clean_expression e1 = clean_expression e2 ->
  (forall e, sympify (clean_expression e1) = Raise e ->
             isinstance e SympifyError = false) ->
  (forall r e, sympify (clean_expression e1) = Return r ->
               result_string r = Raise e ->
               isinstance e SympifyError = false) ->
  calculate e1 = calculate e2.
Proof.
  intros Hc Hs Hr.
  destruct (sympify (clean_expression e1)) as [r|e] eqn:H1.
  - rewrite (calculate_evaluated e1 r H1).
    rewrite Hc in H1. rewrite (calculate_evaluated e2 r H1).
    destruct (result_string r) as [t|e] eqn:Ht; [reflexivity|].
    unfold reported, error_message. now rewrite (Hr r e eq_refl Ht).
  - rewrite (calculate_rejected e1 e H1).
    rewrite Hc in H1. rewrite (calculate_rejected e2 e H1).
    unfold reported, error_message. now rewrite (Hs e eq_refl).
Qed.

(** C10 (amended): [calculate] evaluates the expression after the four
    replacement passes: [sympify] is applied to [clean_expression
    expression], from whose front each of the prefixes [math.], [numpy.],
    [np.] and [Math.] is removed, so that [math.sqrt(4)] is evaluated as
    [sqrt(4)]. Two expressions with the same sanitised form produce the
    same result as long as no [SympifyError] ends the evaluation; when
    [sympify] raises one, the message returned quotes the expression as it
    was given. *)
Theorem calculate_evaluates_sanitised :
  clean_expression "math.sqrt(4)" = "sqrt(4)"
  /\ (forall p rest,
         In p ["math."; "numpy."; "np."; "Math."] ->
         clean_expression (p ++ rest) = clean_expression rest)
  /\ (forall expression r,
         sympify (clean_expression expression) = Return r ->
         calculate expression =
         match result_string r with
         | Return t => Return ("The result is: " ++ t)
         | Raise e =>
             if isinstance e Exception
             then Return (error_message expression e)
             else Raise e
         end)
  /\ (forall e1 e2,
         clean_expression e1 = clean_expression e2 ->
         (forall e, sympify (clean_expression e1) = Raise e ->
                    isinstance e SympifyError = false) ->
         (forall r e, sympify (clean_expression e1) = Return r ->
                      result_string r = Raise e ->
                      isinstance e SympifyError = false) ->
         calculate e1 = calculate e2)
  /\ (forall expression e,
         sympify (clean_expression expression) = Raise e ->
         isinstance e SympifyError = true ->
         calculate expression
         = Return ("Invalid mathematical expression: " ++ expression)).
Proof.
  split; [reflexivity|].
  split; [exact clean_expression_leading|].
  split; [exact calculate_evaluated|].
  split; [exact calculate_same_sanitised|].
  intros expression e H He.
  rewrite (calculate_rejected _ _ H). unfold reported, error_message.
  now rewrite (SympifyError_is_Exception e He), He.
Qed.

End Libraries.

End ToolsFacts.

(** ** The function router *)

Module FunctionRouterFacts.
Import FunctionRouter Markers PyStrFacts PyExcFacts.

Lemma prepend_Some (c : ascii) (r : option string) (s : string) :
  prepend c r = Some s -> exists s', r = Some s' /\ s = String c s'.
Proof.
  destruct r as [s'|]; simpl; [|discriminate].
  intros [= <-]. now exists s'.
Qed.

(** Case analysis on the branch [scan_balanced] has taken. *)
Ltac scan_cases H :=
  repeat match type of H with
         | (if ?b then _ else _) = _ => destruct b eqn:?
         | match ?d with O => _ | S _ => _ end = _ => destruct d
         end.

(** A successful scan returns a prefix of the scanned text that ends with
    a closing brace. *)
Lemma scan_balanced_closes (s : string) :
  forall d i e body,
    scan_balanced d i e s = Some body ->
    exists b rest, body = b ++ "}" /\ s = body ++ rest.
Proof.
  induction s as [|c s IH]; intros d i e body H; [discriminate|].
  cbn [scan_balanced] in H. scan_cases H;
    try discriminate;
    try (apply prepend_Some in H as (s' & H & ->);
         destruct (IH _ _ _ _ H) as (b & rest & -> & E);
         exists (String c b), rest; simpl; now rewrite <- E).
  all: injection H as <-;
    match goal with
    | E : Ascii.eqb ?x close_brace = true |- _ =>
        apply Ascii.eqb_eq in E; subst x
    end;
    exists EmptyString, s; split; reflexivity.
Qed.

(** The isolated candidate is a substring of the raw text that runs from
    an opening brace to a closing brace. *)
Lemma locate_marker_substring (raw candidate : string) :
  locate_marker raw = Some candidate ->
  exists pre b post, candidate = "{" ++ b ++ "}" /\ raw = pre ++ candidate ++ post.
Proof.
  induction raw as [|c raw IH]; intros H; [discriminate|].
  cbn [locate_marker] in H.
  destruct (Ascii.eqb c open_brace) eqn:Ec.
  - apply Ascii.eqb_eq in Ec. subst c.
    apply prepend_Some in H as (body & H & ->).
    destruct (scan_balanced_closes _ _ _ _ _ H) as (b & post & -> & E).
    exists EmptyString, b, post. split; [reflexivity|].
    simpl. now rewrite <- E.
  - destruct (IH H) as (pre & b & post & Ec' & E).
    exists (String c pre), b, post. split; [assumption|].
    simpl. now rewrite <- E.
Qed.

Lemma locate_marker_braced (raw candidate : string) :
  locate_marker raw = Some candidate -> braced_substring raw.
Proof.
  intros H. destruct (locate_marker_substring _ _ H) as (pre & b & post & -> & E).
  exists pre, b, post. rewrite E. now rewrite !append_assoc.
Qed.

Lemma contains_here (needle hay : string) :
  contains needle hay
  = prefix needle hay
    || match hay with
       | EmptyString => false
       | String _ rest => contains needle rest
       end.
Proof. destruct hay; reflexivity. Qed.

Lemma contains_complete (pre needle post : string) :
  contains needle (pre ++ needle ++ post) = true.
Proof.
  induction pre as [|c pre IH].
  - rewrite contains_here. simpl append. now rewrite prefix_append.
  - simpl append. cbn [contains]. rewrite IH. apply orb_true_r.
Qed.

(** [has_braced_substring] decides [braced_substring]. *)
Lemma has_braced_substring_complete (raw : string) :
  braced_substring raw -> has_braced_substring raw = true.
Proof.
  intros (a & b & c & ->). unfold has_braced_substring.
  induction a as [|x a IH].
  - simpl. apply (contains_complete b "}" c).
  - simpl append. cbn [after_open_brace].
    destruct (Ascii.eqb x open_brace); [|exact IH].
    assert (E : a ++ "{" ++ b ++ "}" ++ c = (a ++ "{" ++ b) ++ "}" ++ c)
      by now rewrite !append_assoc.
    change (contains "}" (a ++ "{" ++ b ++ "}" ++ c) = true).
    rewrite E. apply contains_complete.
Qed.

Lemma has_braced_substring_false (raw : string) :
  has_braced_substring raw = false -> ~ braced_substring raw.
Proof.
  intros H B. apply has_braced_substring_complete in B. congruence.
Qed.

Lemma length_append (a b : string) :
  String.length (a ++ b) = String.length a + String.length b.
Proof. induction a as [|x a IH]; simpl; [reflexivity | now rewrite IH]. Qed.

Lemma locate_marker_length (raw candidate : string) :
  locate_marker raw = Some candidate ->
  String.length candidate <= String.length raw.
Proof.
  intros H. destruct (locate_marker_substring _ _ H) as (pre & b & post & _ & ->).
  rewrite !length_append. lia.
Qed.

Lemma prefix_open_brace (c : ascii) (rest : string) :
  prefix "{" (String c rest) = Ascii.eqb c open_brace.
Proof.
  cbn [prefix]. destruct (ascii_dec "{" c) as [<-|N].
  - now destruct rest.
  - symmetry. apply Ascii.eqb_neq. intros ->. now apply N.
Qed.

(** Text without an opening brace in front of a marker is skipped. *)
Lemma locate_marker_skip (pre s : string) :
  contains "{" pre = false -> locate_marker (pre ++ s) = locate_marker s.
Proof.
  induction pre as [|c pre IH]; intros H; [reflexivity|].
  apply contains_cons_false in H as [Hp Hc].
  rewrite prefix_open_brace in Hp.
  simpl append. cbn [locate_marker]. rewrite Hp. now apply IH.
Qed.

(** A scan that needs the whole text to find the closing brace finds none
    in a proper prefix of it. *)
Lemma scan_balanced_truncated (cut : string) :
  forall d i e rest,
    scan_balanced d i e (cut ++ rest) = Some (cut ++ rest) ->
    rest <> EmptyString ->
    scan_balanced d i e cut = None.
Proof.
  induction cut as [|c cut IH]; intros d i e rest H Hrest; [reflexivity|].
  simpl append in H. cbn [scan_balanced] in H |- *.
  scan_cases H; try discriminate;
    try (apply prepend_Some in H as (s' & H & [= <-]);
         now rewrite (IH _ _ _ _ H Hrest)).
  all: injection H as H; destruct cut; [now destruct rest | discriminate].
Qed.

Lemma locate_marker_truncated (marker cut rest : string) :
  locate_marker marker = Some marker ->
  marker = cut ++ rest ->
  rest <> EmptyString ->
  locate_marker cut = None.
Proof.
  intros H -> Hrest. destruct cut as [|c cut]; [reflexivity|].
  simpl append in H. cbn [locate_marker] in H |- *.
  destruct (Ascii.eqb c open_brace).
  - apply prepend_Some in H as (s' & H & [= <-]).
    now rewrite (scan_balanced_truncated _ _ _ _ _ H Hrest).
  - apply locate_marker_length in H. simpl in H. lia.
Qed.

Lemma prefixes_cons (c : ascii) (t p : string) :
  In p (prefixes t) -> In (String c p) (prefixes (String c t)).
Proof. intros H. cbn [prefixes]. right. now apply in_map. Qed.

Lemma prefixes_nil (t : string) : In EmptyString (prefixes t).
Proof. destruct t; now left. Qed.

Lemma open_above_step (d : nat) (c : ascii) (t : string) :
  open_above d (String c t) ->
  (is_closer c = true -> is_opener c = false -> 2 <= d)
  /\ open_above
       ((if is_opener c then S d else if is_closer c then d - 1 else d)) t.
Proof.
  intros H. split.
  - intros Hc Ho.
    specialize (H (String c EmptyString) (prefixes_cons c t _ (prefixes_nil t))).
    simpl in H. rewrite Hc, Ho in H. lia.
  - intros p Hp.
    pose proof (H (String c EmptyString)
                  (prefixes_cons c t _ (prefixes_nil t))) as H1.
    specialize (H (String c p) (prefixes_cons c t p Hp)).
    simpl in H, H1. destruct (is_opener c), (is_closer c); lia.
Qed.

(** A marker whose opening brace is never closed yields no candidate. *)
Lemma scan_balanced_open (s : string) :
  forall d i e,
    1 <= d ->
    open_above d (outside_literals i e s) ->
    scan_balanced d i e s = None.
Proof.
  induction s as [|c s IH]; intros d i e Hd H; [reflexivity|].
  cbn [scan_balanced outside_literals] in H |- *.
  destruct i.
  - destruct e; [now rewrite IH|].
    destruct (Ascii.eqb c backslash); [now rewrite IH|].
    destruct (Ascii.eqb c double_quote); now rewrite IH.
  - destruct (Ascii.eqb c double_quote); [now rewrite IH|].
    apply open_above_step in H as [H2 H]. unfold is_opener, is_closer in *.
    destruct (Ascii.eqb c open_brace || Ascii.eqb c open_bracket).
    + rewrite (IH (S d)); [reflexivity | lia | assumption].
    + destruct (Ascii.eqb c close_brace || Ascii.eqb c close_bracket).
      * specialize (H2 eq_refl eq_refl).
        destruct d as [|[|d]]; [lia | lia |].
        rewrite (IH (S d)); [reflexivity | lia |].
        now replace (S d) with (S (S d) - 1) by lia.
      * now rewrite IH.
Qed.

Lemma never_closed_open_above (body : string) :
  never_closed body = true -> open_above 1 (outside_literals false false body).
Proof.
  unfold never_closed. intros H p Hp.
  rewrite forallb_forall in H. specialize (H p Hp).
  apply Nat.leb_le in H. lia.
Qed.

Lemma locate_marker_never_closed (pre body : string) :
  contains "{" pre = false ->
  never_closed body = true ->
  locate_marker (pre ++ "{" ++ body) = None.
Proof.
  intros Hpre H. rewrite (locate_marker_skip _ _ Hpre).
  simpl append. cbn [locate_marker].
  change (Ascii.eqb "{" open_brace) with true. cbv iota.
  rewrite scan_balanced_open; [reflexivity | lia |].
  now apply never_closed_open_above.
Qed.

Section Router.

Variable parse_json : string -> result json.
Variable registry : list ToolDescriptor.
Variable unknown_tool_message : string -> string.
Variable missing_argument_message : string -> string -> string.
Variable tool_failure_message : string -> exception -> string.
Variable numeric_looking : string -> bool.

Local Abbreviation extract := (FunctionRouter.extract parse_json).
Local Abbreviation dispatch :=
  (FunctionRouter.dispatch registry unknown_tool_message
     missing_argument_message tool_failure_message numeric_looking).
Local Abbreviation route :=
  (FunctionRouter.route parse_json registry unknown_tool_message
     missing_argument_message tool_failure_message numeric_looking).
Local Abbreviation coerce_arguments :=
  (FunctionRouter.coerce_arguments numeric_looking).

Lemma extract_no_candidate (raw : string) :
  locate_marker raw = None -> extract raw = Return None.
Proof. intros H. unfold FunctionRouter.extract. now rewrite H. Qed.

Lemma extract_returns (raw : string) :
  exists found, extract raw = Return found.
Proof.
  unfold FunctionRouter.extract.
  destruct (locate_marker raw) as [candidate|]; [|now exists None].
  destruct (parse_json candidate) as [v|e]; simpl.
  - now exists (call_of_json v).
  - now exists None.
Qed.

Lemma extract_found_marker (raw : string) (call : ParsedCall) :
  extract raw = Return (Some call) -> braced_substring raw.
Proof.
  unfold FunctionRouter.extract.
  destruct (locate_marker raw) as [candidate|] eqn:H; [|discriminate].
  intros _. exact (locate_marker_braced _ _ H).
Qed.

Lemma lookup_raises (tools : list ToolDescriptor) (name : string) e :
  lookup tools name = Raise e -> e = mk_exception UnknownToolError name.
Proof.
  induction tools as [|t tools IH]; simpl.
  - now intros [= <-].
  - destruct (String.eqb (tool_name t) name); [discriminate | exact IH].
Qed.

Lemma check_required_raises params arguments e :
  check_required params arguments = Raise e ->
  exc_class e = MissingArgumentError.
Proof.
  induction params as [|p params IH]; simpl; [discriminate|].
  destruct (param_required p); [|exact IH].
  destruct (lookup_field (param_name p) arguments); [exact IH|].
  now intros [= <-].
Qed.

Lemma dispatch_unknown_tool (call : ParsedCall) e :
  lookup registry (call_name call) = Raise e ->
  dispatch call = Return (unknown_tool_message (call_name call)).
Proof.
  intros H. unfold FunctionRouter.dispatch. rewrite H.
  apply lookup_raises in H. subst e. reflexivity.
Qed.

Lemma dispatch_missing_argument (call : ParsedCall) tool e :
  lookup registry (call_name call) = Return tool ->
  check_required (tool_parameters tool) (call_arguments call) = Raise e ->
  dispatch call
  = Return (missing_argument_message (call_name call) (exc_str e)).
Proof.
  intros Hl Hc. unfold FunctionRouter.dispatch. rewrite Hl. cbn [bind].
  rewrite Hc. apply check_required_raises in Hc.
  destruct e as [c m]. simpl in Hc. subst c. reflexivity.
Qed.

Lemma dispatch_invoked (call : ParsedCall) tool :
  lookup registry (call_name call) = Return tool ->
  check_required (tool_parameters tool) (call_arguments call) = Return tt ->
  dispatch call
  = match tool_invoke tool
            (coerce_arguments (tool_parameters tool) (call_arguments call))
    with
    | Return answer => Return answer
    | Raise e => Return (tool_failure_message (call_name call) e)
    end.
Proof.
  intros Hl Hc. unfold FunctionRouter.dispatch. rewrite Hl. cbn [bind].
  rewrite Hc. cbn [bind].
  destruct (tool_invoke tool _) as [answer|e]; [reflexivity|].
  cbn [try_except handle]. now rewrite isinstance_BaseException.
Qed.

(** Every failure is turned into a string at the dispatcher. *)
Lemma dispatch_returns (call : ParsedCall) :
  exists answer, dispatch call = Return answer.
Proof.
  destruct (lookup registry (call_name call)) as [tool|e] eqn:Hl.
  - destruct (check_required (tool_parameters tool) (call_arguments call))
      as [[]|e] eqn:Hc.
    + rewrite (dispatch_invoked _ _ Hl Hc).
      destruct (tool_invoke tool _); eauto.
    + rewrite (dispatch_missing_argument _ _ _ Hl Hc). eauto.
  - rewrite (dispatch_unknown_tool _ _ Hl). eauto.
Qed.

Lemma route_no_call (raw : string) :
  extract raw = Return None -> route raw = Return (mk_route raw false).
Proof. intros H. unfold FunctionRouter.route. now rewrite H. Qed.

Lemma route_call (raw : string) (call : ParsedCall) (answer : string) :
  extract raw = Return (Some call) ->
  dispatch call = Return answer ->
  route raw = Return (mk_route answer true).
Proof.
  intros H Hd. unfold FunctionRouter.route. rewrite H. cbn [bind].
  now rewrite Hd.
Qed.

(** C1: a text with no substring running from an opening brace to a
    closing brace is routed unchanged, with [was_call = false]. *)
Theorem route_plain_text_unchanged (s : string) :
  ~ braced_substring s -> route s = Return (mk_route s false).
Proof.
  intros H. apply route_no_call, extract_no_candidate.
  destruct (locate_marker s) as [candidate|] eqn:E; [|reflexivity].
  exfalso. exact (H (locate_marker_braced _ _ E)).
Qed.

(** C2: [route] always returns, and [was_call] is true exactly when the
    extractor found a call; the text is then what the dispatcher answered
    for that call. A call of an unknown tool, a call with a required
    argument missing and a tool that raises each give the error string
    with [was_call = true]. *)
Theorem route_was_call_iff_extracted (raw : string) :
  exists r,
    route raw = Return r
    /\ (was_call r = true <-> exists call, extract raw = Return (Some call))
    /\ (forall call,
           extract raw = Return (Some call) ->
           dispatch call = Return (text r)
           /\ (forall e,
                  lookup registry (call_name call) = Raise e ->
                  r = mk_route (unknown_tool_message (call_name call)) true)
           /\ (forall tool e,
                  lookup registry (call_name call) = Return tool ->
                  check_required (tool_parameters tool) (call_arguments call)
                  = Raise e ->
                  r = mk_route
                        (missing_argument_message (call_name call) (exc_str e))
                        true)
           /\ (forall tool e,
                  lookup registry (call_name call) = Return tool ->
                  check_required (tool_parameters tool) (call_arguments call)
                  = Return tt ->
                  tool_invoke tool
                    (coerce_arguments (tool_parameters tool)
                       (call_arguments call)) = Raise e ->
                  r = mk_route (tool_failure_message (call_name call) e) true)).
Proof.
  destruct (extract_returns raw) as [[call|] He].
  - destruct (dispatch_returns call) as [answer Hd].
    exists (mk_route answer true).
    split; [exact (route_call _ _ _ He Hd)|].
    split; [split; [intros _; now exists call | reflexivity]|].
    intros call' He'. rewrite He in He'. injection He' as <-.
    split; [exact Hd|]. split; [|split].
    + intros e Hl. rewrite (dispatch_unknown_tool _ _ Hl) in Hd.
      now injection Hd as <-.
    + intros tool e Hl Hc.
      rewrite (dispatch_missing_argument _ _ _ Hl Hc) in Hd.
      now injection Hd as <-.
    + intros tool e Hl Hc Hi.
      rewrite (dispatch_invoked _ _ Hl Hc), Hi in Hd.
      now injection Hd as <-.
  - exists (mk_route raw false).
    split; [exact (route_no_call _ He)|].
    split; [split; [discriminate | intros [call Hc]; congruence]|].
    intros call Hc. congruence.
Qed.

(** C3: [extract] returns on every string, whatever the parser does, and
    raises nothing. It returns no call when the parser rejects the
    isolated candidate, when the opening brace of the marker is never
    closed, and when a marker that would be isolated whole is cut short. *)
Theorem extract_total_and_tolerant :
  (forall raw, exists found, extract raw = Return found)
  /\ (forall raw candidate e,
         locate_marker raw = Some candidate ->
         parse_json candidate = Raise e ->
         extract raw = Return None)
  /\ (forall pre body,
         contains "{" pre = false ->
         never_closed body = true ->
         extract (pre ++ "{" ++ body) = Return None)
  /\ (forall pre marker cut rest,
         contains "{" pre = false ->
         locate_marker marker = Some marker ->
         marker = cut ++ rest ->
         rest <> EmptyString ->
         extract (pre ++ cut) = Return None).
Proof.
  split; [exact extract_returns|]. split; [|split].
  - intros raw candidate e Hl Hp. unfold FunctionRouter.extract.
    now rewrite Hl, Hp.
  - intros pre body Hpre Hb. apply extract_no_candidate.
    now apply locate_marker_never_closed.
  - intros pre marker cut rest Hpre Hm E Hrest. apply extract_no_candidate.
    rewrite (locate_marker_skip _ _ Hpre).
    exact (locate_marker_truncated _ _ _ Hm E Hrest).
Qed.

End Router.

End FunctionRouterFacts.

(** ** llm_with_functions.py *)

Module LLMFacts.
Import Conversation LLM PromptLayout PyStrFacts PyExcFacts.

Lemma fold_left_render (turns : list message) (prompt : string) :
  fold_left (fun prompt turn =>
               prompt ++ (role turn ++ ": " ++ content turn ++ nl))
            turns prompt
  = prompt ++ render_history turns.
Proof.
  revert prompt. induction turns as [|turn turns IH]; intros prompt; simpl.
  - now rewrite append_nil_r.
  - rewrite IH, append_assoc. reflexivity.
Qed.

Lemma build_prompt_layout (self : LLMModuleWithFunctions)
      (history : list message) :
  build_prompt self history
  = _build_system_prompt self ++ nl ++ nl
    ++ render_history (last_n 10 history) ++ "assistant:".
Proof.
  unfold build_prompt. rewrite fold_left_render.
  now rewrite !append_assoc.
Qed.

Lemma skipn_length_app {A} (older recent : list A) :
  skipn (List.length older) (older ++ recent)%list = recent.
Proof. induction older as [|x older IH]; simpl; [reflexivity | exact IH]. Qed.

Lemma last_n_short {A} (n : nat) (l : list A) :
  List.length l <= n -> last_n n l = l.
Proof.
  intros H. unfold last_n.
  now replace (List.length l - n) with 0 by lia.
Qed.

Lemma last_n_app {A} (older recent : list A) :
  last_n (List.length recent) (older ++ recent)%list = recent.
Proof.
  unfold last_n. rewrite length_app.
  replace (List.length older + List.length recent - List.length recent)
    with (List.length older) by lia.
  apply skipn_length_app.
Qed.

(** C6: the history section of the prompt shows the last 10 messages
    only. A history of at most 10 messages is shown whole and in order; of
    a longer one the 10 most recent messages are shown, in order, and the
    prompt is the same whatever the older messages are. *)
Theorem prompt_history_window (self : LLMModuleWithFunctions) :
  (forall history,
      List.length history <= 10 ->
      build_prompt self history
      = _build_system_prompt self ++ nl ++ nl
        ++ render_history history ++ "assistant:")
  /\ (forall older recent,
         List.length recent = 10 ->
         build_prompt self (older ++ recent)%list
         = _build_system_prompt self ++ nl ++ nl
           ++ render_history recent ++ "assistant:").
Proof.
  split.
  - intros history H. rewrite build_prompt_layout.
    now rewrite (last_n_short 10 history H).
  - intros older recent H. rewrite build_prompt_layout.
    rewrite <- H at 1. now rewrite last_n_app.
Qed.

Section Generate.

Variable route_llm_output : string -> result (string * bool).
Variable post_generate : string -> string -> string -> result (option string).

Local Abbreviation generate := (LLM.generate route_llm_output post_generate).

(** The outcome of the backend call [generate] makes for [user_text]. *)
Local Abbreviation backend_outcome self user_text h :=
  (post_generate (api_endpoint self) (model_name self)
     (build_prompt self (get_history (add_user_message user_text h)))).

Lemma generate_caught self user_text h e (fallback : string) :
  backend_outcome self user_text h = Raise e ->
  fallback = (if isinstance e Timeout then timeout_fallback
              else connection_fallback) ->
  isinstance e RequestException = true ->
  generate self user_text h
  = (Return fallback,
     add_assistant_message fallback (add_user_message user_text h)).
Proof.
  intros H -> He. unfold LLM.generate. rewrite H. cbn [bind].
  destruct (isinstance e Timeout); [reflexivity|].
  now rewrite He.
Qed.

Lemma generate_routed self user_text h response routed :
  backend_outcome self user_text h = Return response ->
  route_llm_output (routed_text response) = Return routed ->
  generate self user_text h
  = (Return (fst routed),
     add_assistant_message (fst routed) (add_user_message user_text h)).
Proof.
  intros H Hr. unfold LLM.generate. rewrite H. cbn [bind].
  fold (routed_text response). now rewrite Hr.
Qed.

(** An exception that is not a [RequestException] propagates, the user
    message already recorded. *)
Lemma generate_uncaught self user_text h e :
  backend_outcome self user_text h = Raise e ->
  isinstance e RequestException = false ->
  generate self user_text h = (Raise e, add_user_message user_text h).
Proof.
  intros H He. unfold LLM.generate. rewrite H. cbn [bind].
  destruct (isinstance e Timeout) eqn:Et.
  - apply Timeout_is_RequestException in Et. congruence.
  - now rewrite He.
Qed.

(** C4: when the backend call raises a timeout or a connection error,
    [generate] returns a fallback string, recorded in the history as the
    assistant's entry, and the exception does not propagate. *)
Theorem generate_backend_failure_fallback self user_text h e :
  backend_outcome self user_text h = Raise e ->
  isinstance e Timeout = true \/ isinstance e ConnectionError = true ->
  exists fallback,
    generate self user_text h
    = (Return fallback,
       add_assistant_message fallback (add_user_message user_text h))
    /\ fallback = (if isinstance e Timeout then timeout_fallback
                   else connection_fallback).
Proof.
  intros H He. eexists. split; [|reflexivity].
  apply (generate_caught _ _ _ e); [assumption | reflexivity |].
  destruct He as [He|He];
    [now apply Timeout_is_RequestException
    | now apply ConnectionError_is_RequestException].
Qed.

(** The exception [e] ends the [try] block: the backend call raises it, or
    the router does on the text of the body the backend returned. *)
Local Abbreviation raised_in_try self user_text h e :=
  (backend_outcome self user_text h = Raise e
   \/ exists response,
        backend_outcome self user_text h = Return response
        /\ route_llm_output (routed_text response) = Raise e).

Lemma generate_raised self user_text h e :
  raised_in_try self user_text h e ->
  generate self user_text h
  = if isinstance e Timeout
    then (Return timeout_fallback,
          add_assistant_message timeout_fallback
            (add_user_message user_text h))
    else if isinstance e RequestException
         then (Return connection_fallback,
               add_assistant_message connection_fallback
                 (add_user_message user_text h))
         else (Raise e, add_user_message user_text h).
Proof.
  intros [H | (response & H & Hr)]; unfold LLM.generate; rewrite H;
    cbn [bind]; [|fold (routed_text response); rewrite Hr; cbn [bind]];
    (destruct (isinstance e Timeout); [reflexivity|]);
    destruct (isinstance e RequestException); reflexivity.
Qed.

(** C5 (amended): every call of [generate] appends exactly one user
    message. In each outcome in which it returns, a routed backend answer,
    a timeout, a connection error or another [RequestException] raised
    inside the [try] block, it then appends exactly one assistant entry,
    holding the string returned. When an exception that is not a
    [RequestException] is raised inside the [try] block, by the backend
    step or by the router, it appends no assistant entry and the exception
    propagates. *)
Theorem generate_appends_user_and_assistant self user_text h :
  ((exists response routed,
       backend_outcome self user_text h = Return response
       /\ route_llm_output (routed_text response) = Return routed)
   \/ (exists e,
          raised_in_try self user_text h e
          /\ isinstance e RequestException = true) ->
   exists answer,
     generate self user_text h
     = (Return answer,
        (h ++ [mk_message "user" user_text;
               mk_message "assistant" answer])%list))
  /\ (forall e,
         raised_in_try self user_text h e ->
         isinstance e RequestException = false ->
         generate self user_text h
         = (Raise e, (h ++ [mk_message "user" user_text])%list)).
Proof.
  split.
  - intros [(response & routed & H & Hr) | (e & H & He)].
    + exists (fst routed). rewrite (generate_routed _ _ _ _ _ H Hr).
      unfold add_user_message, add_assistant_message.
      now rewrite <- app_assoc.
    + rewrite (generate_raised _ _ _ _ H), He.
      destruct (isinstance e Timeout); eexists;
        unfold add_user_message, add_assistant_message;
        now rewrite <- app_assoc.
  - intros e H He. rewrite (generate_raised _ _ _ _ H), He.
    destruct (isinstance e Timeout) eqn:Et; [|reflexivity].
    apply Timeout_is_RequestException in Et. congruence.
Qed.

End Generate.

Section Registry.

Context {expr pyfloat http_content : Type}.
Variable sympify : string -> result expr.
Variable float_evalf : expr -> result pyfloat.
Variable str_float : pyfloat -> string.
Variable str_expr : expr -> result string.
Variable arxiv_get : string -> result (nat * http_content).
Variable atom_entries : http_content -> result (list (string * string)).

(** C7: the system prompt contains the name of every tool of the
    registry, [search_arxiv] and [calculate]. *)
Theorem system_prompt_names_tools (self : LLMModuleWithFunctions)
        (name : string) :
  In name
     (map fst (Tools.AVAILABLE_TOOLS sympify float_evalf str_float str_expr
                 arxiv_get atom_entries)) ->
  substring_of name (_build_system_prompt self).
Proof.
  intros [<-|[<-|[]]]; apply contains_sound; vm_compute; reflexivity.
Qed.

End Registry.

End LLMFacts.

(** ** The theorems at work on the example scenarios *)

Module Examples.
Import Conversation FunctionRouter LLM Markers PromptLayout Catalogue.
  Import CalculateMessages.
Import PyStrFacts FunctionRouterFacts LLMFacts ToolsFacts.

Lemma route_plain_text_unchanged_witness :
  ~ braced_substring "The capital of Canada is Ottawa."
  /\ Scenario.route "The capital of Canada is Ottawa."
     = Return (mk_route "The capital of Canada is Ottawa." false).
Proof.
  assert (H : ~ braced_substring "The capital of Canada is Ottawa.")
    by (apply has_braced_substring_false; reflexivity).
  split; [exact H|].
  exact (route_plain_text_unchanged Scenario.parse_json Scenario.registry
           Scenario.unknown_tool_message Scenario.missing_argument_message
           Scenario.tool_failure_message Scenario.numeric_looking _ H).
Defined.

Lemma route_was_call_iff_extracted_witness :
  Scenario.extract (Scenario.marker "teleport" "to" "mars")
  = Return (Some (mk_call "teleport" [("to", JString "mars")]))
  /\ Scenario.route (Scenario.marker "teleport" "to" "mars")
     = Return (mk_route "Sorry, I don't know a tool named teleport." true).
Proof.
  assert (He : Scenario.extract (Scenario.marker "teleport" "to" "mars")
               = Return (Some (mk_call "teleport" [("to", JString "mars")])))
    by (vm_compute; reflexivity).
  split; [exact He|].
  destruct (route_was_call_iff_extracted Scenario.parse_json Scenario.registry
              Scenario.unknown_tool_message Scenario.missing_argument_message
              Scenario.tool_failure_message Scenario.numeric_looking
              (Scenario.marker "teleport" "to" "mars")) as (r & Hr & _ & Hc).
  destruct (Hc _ He) as (_ & Hu & _).
  unfold Scenario.route. rewrite Hr. f_equal.
  exact (Hu (mk_exception UnknownToolError "teleport") eq_refl).
Defined.

Lemma extract_total_and_tolerant_witness :
  Scenario.extract ("Sure! {" ++ q "function" ++ ": {" ++ q "}" ++ ": 1")
  = Return None
  /\ Scenario.extract
       ("Sure! {" ++ q "function" ++ ": " ++ q "calculate" ++ ", "
        ++ q "arguments" ++ ": {" ++ q "expression" ++ ": " ++ dq ++ "2+")
     = Return None.
Proof.
  destruct (extract_total_and_tolerant Scenario.parse_json)
    as (_ & _ & Hopen & Hcut).
  split.
  - apply (Hopen "Sure! " (q "function" ++ ": {" ++ q "}" ++ ": 1"));
      reflexivity.
  - apply (Hcut "Sure! " (Scenario.marker "calculate" "expression" "2+2")
             ("{" ++ q "function" ++ ": " ++ q "calculate" ++ ", "
              ++ q "arguments" ++ ": {" ++ q "expression" ++ ": " ++ dq ++ "2+")
             ("2" ++ dq ++ "}}"));
      [reflexivity | reflexivity | reflexivity | discriminate].
Defined.

Lemma generate_backend_failure_fallback_witness :
  LLM.generate Scenario.route_llm_output Scenario.backend_times_out
    llm_module_with_functions "What is 2+2?" []
  = (Return timeout_fallback,
     [mk_message "user" "What is 2+2?"; mk_message "assistant" timeout_fallback])
  /\ LLM.generate Scenario.route_llm_output Scenario.backend_unreachable
       llm_module_with_functions "What is 2+2?" []
     = (Return connection_fallback,
        [mk_message "user" "What is 2+2?";
         mk_message "assistant" connection_fallback]).
Proof.
  split.
  - destruct (generate_backend_failure_fallback Scenario.route_llm_output
                Scenario.backend_times_out llm_module_with_functions
                "What is 2+2?" []
                (mk_exception ReadTimeout "Read timed out. (read timeout=120)")
                eq_refl (or_introl eq_refl)) as (fallback & H & ->).
    exact H.
  - destruct (generate_backend_failure_fallback Scenario.route_llm_output
                Scenario.backend_unreachable llm_module_with_functions
                "What is 2+2?" []
                (mk_exception ConnectionError "Connection refused")
                eq_refl (or_intror eq_refl)) as (fallback & H & ->).
    exact H.
Defined.

Lemma generate_appends_user_and_assistant_witness :
  exists answer,
    LLM.generate Scenario.route_llm_output Scenario.backend_answers
      llm_module_with_functions "What is 2+2?"
      [mk_message "user" "Hello"; mk_message "assistant" "Hi!"]
    = (Return answer,
       [mk_message "user" "Hello"; mk_message "assistant" "Hi!";
        mk_message "user" "What is 2+2?"; mk_message "assistant" answer]).
Proof.
  apply (proj1 (generate_appends_user_and_assistant
                  Scenario.route_llm_output Scenario.backend_answers
                  llm_module_with_functions "What is 2+2?"
                  [mk_message "user" "Hello"; mk_message "assistant" "Hi!"])).
  left.
  exists (Some ("assistant: " ++ Scenario.marker "calculate" "expression" "2+2"
                ++ nl)),
         ("The result is: 2+2", true).
  split; [reflexivity | vm_compute; reflexivity].
Defined.

(** A call of [generate] that appends no assistant entry: the body of the
    backend holds [null] as its response, the [AttributeError] is not a
    [RequestException], and the history ends with the user message. *)
Lemma generate_leaves_no_assistant_entry :
  LLM.generate Scenario.route_llm_output Situations.backend_null_response
    llm_module_with_functions "What is 2+2?"
    [mk_message "user" "Hello"; mk_message "assistant" "Hi!"]
  = (Raise (mk_exception AttributeError
              "'NoneType' object has no attribute 'strip'"),
     [mk_message "user" "Hello"; mk_message "assistant" "Hi!";
      mk_message "user" "What is 2+2?"])
  /\ ~ (exists answer,
          snd (LLM.generate Scenario.route_llm_output
                 Situations.backend_null_response llm_module_with_functions
                 "What is 2+2?"
                 [mk_message "user" "Hello"; mk_message "assistant" "Hi!"])
          = [mk_message "user" "Hello"; mk_message "assistant" "Hi!";
             mk_message "user" "What is 2+2?"; mk_message "assistant" answer]).
Proof.
  split; [reflexivity|]. intros [answer H]. vm_compute in H. discriminate.
Qed.

Lemma prompt_history_window_witness :
  build_prompt llm_module_with_functions
    (fst Scenario.twelve_messages ++ snd Scenario.twelve_messages)%list
  = _build_system_prompt llm_module_with_functions ++ nl ++ nl
    ++ render_history (snd Scenario.twelve_messages) ++ "assistant:".
Proof.
  apply (proj2 (prompt_history_window llm_module_with_functions)).
  reflexivity.
Defined.

Lemma system_prompt_names_tools_witness :
  substring_of "search_arxiv" (_build_system_prompt llm_module_with_functions)
  /\ substring_of "calculate" (_build_system_prompt llm_module_with_functions).
Proof.
  split;
    apply (system_prompt_names_tools Scenario.sympify Scenario.float_evalf
             Scenario.str_float Scenario.str_expr Scenario.arxiv_get
             Scenario.atom_entries);
    simpl; auto.
Defined.



Lemma calculate_evaluates_sanitised_witness :
  Scenario.calculate "numpy.sqrt(4)" = Scenario.calculate "math.sqrt(4)".
Proof.
  destruct (calculate_evaluates_sanitised Scenario.sympify
              Scenario.float_evalf Scenario.str_float Scenario.str_expr)
    as (_ & _ & _ & Hsame & _).
  apply Hsame.
  - reflexivity.
  - intros e H. vm_compute in H. discriminate.
  - intros r e H Hr. vm_compute in H. injection H as <-.
    vm_compute in Hr. discriminate.
Defined.

(** Two expressions with the same sanitised form and different results:
    the expression is cut short, [sympify] rejects it, and each message
    quotes the expression as it was given. *)
Lemma calculate_prefix_variants_differ :
  Tools.clean_expression "math.sqrt(4" = Tools.clean_expression "sqrt(4"
  /\ Scenario.calculate "math.sqrt(4"
     = Return "Invalid mathematical expression: math.sqrt(4"
  /\ Scenario.calculate "sqrt(4"
     = Return "Invalid mathematical expression: sqrt(4"
  /\ Scenario.calculate "math.sqrt(4" <> Scenario.calculate "sqrt(4".
Proof.
  split; [reflexivity|]. split; [reflexivity|]. split; [reflexivity|].
  vm_compute. discriminate.
Qed.

(** The four passes run once each: an occurrence that a removal brings
    together stays. *)
Example clean_expression_single_pass :
  Tools.clean_expression "nnp.p.pi" = "np.pi"
  /\ Tools.clean_expression "mamath.th.pi" = "math.pi".
Proof. split; reflexivity. Qed.

End Examples.

(** ** tools.py, continued *)

Module ToolsMore.
Import Tools CalculateMessages PyStrFacts PyExcFacts ToolsFacts.

Lemma substring_length (m : nat) (s : string) :
  String.length (substring 0 m s) <= m.
Proof.
  revert s. induction m as [|m IH]; intros [|c s]; simpl; try lia.
  specialize (IH s). lia.
Qed.

Lemma replace_from_shorter (old : string) (s : string) :
  forall skip,
    String.length (replace_from old EmptyString skip s) <= String.length s.
Proof.
  induction s as [|c s IH]; intros skip; cbn [replace_from String.length];
    [lia|].
  destruct skip as [|k].
  - destruct (prefix old (String c s)); cbn [append String.length].
    + specialize (IH (String.length old - 1)). lia.
    + specialize (IH 0). lia.
  - specialize (IH k). lia.
Qed.

Lemma replace_shorter (old s : string) :
  String.length (replace old EmptyString s) <= String.length s.
Proof. apply replace_from_shorter. Qed.

(** What [format_entries] makes of the entry at position [k]. *)
Lemma format_entries_nth (entries : list (string * string)) :
  forall i k title summary,
    nth_error entries k = Some (title, summary) ->
    nth_error (format_entries i entries) k
    = Some (str_of_nat (i + k) ++ ". " ++ strip title ++ nl ++ "   Summary: "
            ++ (if (150 <? String.length (strip summary))%nat
                then substring 0 150 (strip summary) ++ "..."
                else strip summary)).
Proof.
  induction entries as [|[t s] entries IH]; intros i k title summary H.
  - destruct k; discriminate.
  - destruct k as [|k]; cbn [nth_error format_entries] in *.
    + injection H as -> ->. now rewrite Nat.add_0_r.
    + rewrite (IH (S i) k title summary H).
      now replace (S i + k) with (i + S k) by lia.
Qed.

Lemma format_entries_length (entries : list (string * string)) :
  forall i, List.length (format_entries i entries) = List.length entries.
Proof.
  induction entries as [|[t s] entries IH]; intros i; cbn; [reflexivity|].
  now rewrite IH.
Qed.

Section Libraries.

Context {expr pyfloat http_content : Type}.
Variable sympify : string -> result expr.
Variable float_evalf : expr -> result pyfloat.
Variable str_float : pyfloat -> string.
Variable str_expr : expr -> result string.
Variable arxiv_get : string -> result (nat * http_content).
Variable atom_entries : http_content -> result (list (string * string)).

Local Abbreviation calculate :=
  (Tools.calculate sympify float_evalf str_float str_expr).
Local Abbreviation search_arxiv := (Tools.search_arxiv arxiv_get atom_entries).
Local Abbreviation AVAILABLE_TOOLS :=
  (Tools.AVAILABLE_TOOLS sympify float_evalf str_float str_expr
     arxiv_get atom_entries).

Lemma search_arxiv_raised (query : string) (e : exception) :
  arxiv_get ("all:" ++ query) = Raise e
  \/ (exists content,
         arxiv_get ("all:" ++ query) = Return (200, content)
         /\ atom_entries content = Raise e) ->
  search_arxiv query
  = if isinstance e Timeout
    then Return "arXiv search timed out. Please try again."
    else if isinstance e Exception
         then Return ("Error searching arXiv: " ++ exc_str e)
         else Raise e.
Proof.
  unfold Tools.search_arxiv.
  intros [H | (content & H & Hp)]; rewrite H; cbn [bind fst snd];
    [|change (negb (200 =? 200)%nat) with false; cbv iota; rewrite Hp;
      cbn [bind]];
    cbn [try_except handle];
    (destruct (isinstance e Timeout); [reflexivity|]);
    destruct (isinstance e Exception); reflexivity.
Qed.


Lemma search_arxiv_entries (query : string) content entries :
  arxiv_get ("all:" ++ query) = Return (200, content) ->
  atom_entries content = Return entries ->
  search_arxiv query
  = Return (match entries with
            | [] => "No arXiv papers found for query: '" ++ query ++ "'"
            | _ => "Found " ++ str_of_nat (List.length entries)
                   ++ " papers on arXiv:" ++ nl ++ nl
                   ++ join (nl ++ nl) (format_entries 1 entries)
            end).
Proof.
  intros H Hp. unfold Tools.search_arxiv. rewrite H. cbn [bind fst snd].
  change (negb (200 =? 200)%nat) with false. cbv iota. rewrite Hp. cbn [bind].
  now destruct entries.
Qed.


(** X2: a response whose status is not 200 is reported by its status
    code; its content is not parsed, so that the answer is the same whatever
    the parse would have given or raised. *)
Theorem search_arxiv_bad_status (query : string) status content :
  arxiv_get ("all:" ++ query) = Return (status, content) ->
  status <> 200 ->
  forall other_entries : http_content -> result (list (string * string)),
    Tools.search_arxiv arxiv_get other_entries query
    = Return ("Error: arXiv API returned status " ++ str_of_nat status).
Proof.
  intros H Hs other_entries. unfold Tools.search_arxiv.
  rewrite H. cbn [bind fst snd].
  apply Nat.eqb_neq in Hs. now rewrite Hs.
Qed.

(** X3: an exception raised by the request or by the parse of a 200
    response is answered with the timeout message when it is an instance of
    [Timeout], the first clause, and with the error message that quotes it
    when it is any other instance of [Exception]; an exception that is not
    an instance of [Exception] passes both clauses. *)
Theorem search_arxiv_failure_message (query : string) (e : exception) :
  arxiv_get ("all:" ++ query) = Raise e
  \/ (exists content,
         arxiv_get ("all:" ++ query) = Return (200, content)
         /\ atom_entries content = Raise e) ->
  (isinstance e Timeout = true ->
   search_arxiv query = Return "arXiv search timed out. Please try again.")
  /\ (isinstance e Timeout = false ->
      isinstance e Exception = true ->
      search_arxiv query = Return ("Error searching arXiv: " ++ exc_str e))
  /\ (isinstance e Exception = false ->
      search_arxiv query = Raise e).
Proof.
  intros H. rewrite (search_arxiv_raised query e H).
  split; [intros ->; reflexivity|].
  split; [intros -> ->; reflexivity|].
  intros He. destruct (isinstance e Timeout) eqn:Et.
  - apply Timeout_is_Exception in Et. congruence.
  - now rewrite He.
Qed.

(** X4: when the service answers 200 with at least one entry, the number
    [search_arxiv] announces is the number of items it lists, and the items
    are numbered from 1 in the order of the entries, each with its title
    stripped. *)
Theorem search_arxiv_listing (query : string) content entries :
  arxiv_get ("all:" ++ query) = Return (200, content) ->
  atom_entries content = Return entries ->
  entries <> [] ->
  exists items,
    search_arxiv query
    = Return ("Found " ++ str_of_nat (List.length items)
              ++ " papers on arXiv:" ++ nl ++ nl ++ join (nl ++ nl) items)
    /\ List.length items = List.length entries
    /\ forall k title summary,
         nth_error entries k = Some (title, summary) ->
         exists shown,
           nth_error items k
           = Some (str_of_nat (S k) ++ ". " ++ strip title ++ nl
                   ++ "   Summary: " ++ shown).
Proof.
  intros H Hp Hne. exists (format_entries 1 entries).
  rewrite (search_arxiv_entries _ _ _ H Hp), format_entries_length.
  split; [now destruct entries|]. split; [reflexivity|].
  intros k title summary Hk.
  rewrite (format_entries_nth _ 1 k title summary Hk). eauto.
Qed.

(** X5: the summary shown for an entry is never longer than 153
    characters: a stripped summary of at most 150 characters is shown
    whole, a longer one is cut to its first 150 characters followed by
    three dots. *)
Theorem format_entries_summary_bound (entries : list (string * string))
        (i k : nat) (title summary : string) :
  nth_error entries k = Some (title, summary) ->
  exists shown,
    nth_error (format_entries i entries) k
    = Some (str_of_nat (i + k) ++ ". " ++ strip title ++ nl
            ++ "   Summary: " ++ shown)
    /\ String.length shown <= 153
    /\ (String.length (strip summary) <= 150 -> shown = strip summary)
    /\ (150 < String.length (strip summary) ->
        shown = substring 0 150 (strip summary) ++ "..."
        /\ String.length shown = 153).
Proof.
  intros H. rewrite (format_entries_nth _ i k title summary H).
  eexists. split; [reflexivity|].
  destruct (150 <? String.length (strip summary))%nat eqn:E.
  - apply Nat.ltb_lt in E.
    assert (L : String.length (substring 0 150 (strip summary) ++ "...")
                = String.length (substring 0 150 (strip summary)) + 3)
      by (clear; induction (substring 0 150 (strip summary)) as [|c t IH];
          simpl; [reflexivity | now rewrite IH]).
    pose proof (substring_length 150 (strip summary)) as B.
    assert (G : 150 <= String.length (substring 0 150 (strip summary))).
    { clear - E. revert E. generalize (strip summary) as s.
      generalize 150 as m. induction m as [|m IH]; intros s E; [lia|].
      destruct s as [|c s]; simpl in *; [lia|].
      specialize (IH s). lia. }
    split; [lia|]. split; [lia|]. intros _. split; [reflexivity | lia].
  - apply Nat.ltb_ge in E. split; [lia|]. split; [reflexivity | lia].
Qed.




End Libraries.

(** X7: sanitising never makes an expression longer: the four passes only
    remove characters. *)
Theorem clean_expression_never_longer (expression : string) :
  String.length (clean_expression expression) <= String.length expression.
Proof.
  unfold clean_expression.
  pose proof (replace_shorter "math." expression).
  pose proof (replace_shorter "numpy." (replace "math." EmptyString expression)).
  pose proof (replace_shorter "np."
                (replace "numpy." EmptyString
                   (replace "math." EmptyString expression))).
  pose proof (replace_shorter "Math."
                (replace "np." EmptyString
                   (replace "numpy." EmptyString
                      (replace "math." EmptyString expression)))).
  lia.
Qed.

(** X8: an expression in which none of [math.], [numpy.], [np.] and
    [Math.] occurs reaches [sympify] exactly as it was given. *)
Theorem clean_expression_prefix_free (expression : string) :
  contains "math." expression = false ->
  contains "numpy." expression = false ->
  contains "np." expression = false ->
  contains "Math." expression = false ->
  clean_expression expression = expression.
Proof.
  intros H1 H2 H3 H4. unfold clean_expression.
  rewrite (replace_absent _ _ _ H1), (replace_absent _ _ _ H2).
  now rewrite (replace_absent _ _ _ H3), (replace_absent _ _ _ H4).
Qed.

End ToolsMore.

(** ** llm_with_functions.py, continued *)

Module LLMMore.
Import Conversation LLM PromptLayout PyStrFacts PyExcFacts LLMFacts.

Lemma lstrip_shape (s : string) :
  lstrip s = EmptyString
  \/ exists c r, lstrip s = String c r /\ isspace c = false.
Proof.
  induction s as [|c s IH]; [now left|].
  cbn [lstrip]. destruct (isspace c) eqn:E; [exact IH|].
  right. now exists c, s.
Qed.

Lemma rstrip_idempotent (s : string) : rstrip (rstrip s) = rstrip s.
Proof.
  induction s as [|c s IH]; [reflexivity|].
  cbn [rstrip]. destruct (rstrip s) as [|d r] eqn:E.
  - destruct (isspace c) eqn:Ec; [reflexivity|].
    cbn [rstrip]. now rewrite Ec.
  - cbn [rstrip]. cbn [rstrip] in IH.
    destruct (rstrip r) as [|d' r'] eqn:Er.
    + destruct (isspace d); [discriminate|]. now injection IH as <-.
    + now injection IH as <-.
Qed.

Lemma rstrip_head (c : ascii) (r : string) :
  isspace c = false -> exists r', rstrip (String c r) = String c r'.
Proof.
  intros E. cbn [rstrip]. destruct (rstrip r) as [|d r'] eqn:Er.
  - rewrite E. now exists EmptyString.
  - now exists (String d r').
Qed.

(** Stripping a stripped text changes nothing. *)
Lemma strip_idempotent (s : string) : strip (strip s) = strip s.
Proof.
  unfold strip.
  destruct (lstrip_shape s) as [E | (c & r & E & Ec)]; rewrite E.
  - reflexivity.
  - destruct (rstrip_head c r Ec) as [r' E'].
    replace (lstrip (rstrip (String c r))) with (rstrip (String c r))
      by (rewrite E'; cbn [lstrip]; now rewrite Ec).
    apply rstrip_idempotent.
Qed.

Lemma strip_role_prefix_stripped (prefixes : list string) (out : string) :
  strip out = out ->
  strip (strip_role_prefix prefixes out) = strip_role_prefix prefixes out.
Proof.
  intros H. induction prefixes as [|p prefixes IH]; cbn [strip_role_prefix];
    [exact H|].
  destruct (startswith out p); [apply strip_idempotent | exact IH].
Qed.

Lemma routed_text_stripped (response : option string) :
  strip (routed_text response) = routed_text response.
Proof. apply strip_role_prefix_stripped, strip_idempotent. Qed.

Lemma drop_append (p rest : string) : drop (String.length p) (p ++ rest) = rest.
Proof. induction p as [|c p IH]; simpl; [now destruct rest | exact IH]. Qed.

Lemma render_history_app (older recent : list message) :
  render_history (older ++ recent)%list
  = render_history older ++ render_history recent.
Proof.
  induction older as [|turn older IH]; simpl; [reflexivity|].
  now rewrite IH, append_assoc.
Qed.

Lemma last_n_recent {A} (n : nat) (older recent : list A) :
  List.length recent <= n ->
  last_n n (older ++ recent)%list
  = (last_n (n - List.length recent) older ++ recent)%list.
Proof.
  intros H. unfold last_n. rewrite length_app, skipn_app.
  replace (List.length older + List.length recent - n)
    with (List.length older - (n - List.length recent)) by lia.
  now replace (List.length older - (n - List.length recent)
               - List.length older) with 0 by lia.
Qed.

(** The most recent turns, up to ten of them, close the prompt. *)
Lemma build_prompt_recent (self : LLMModuleWithFunctions)
      (older recent : list message) :
  List.length recent <= 10 ->
  build_prompt self (older ++ recent)%list
  = (_build_system_prompt self ++ nl ++ nl
     ++ render_history (last_n (10 - List.length recent) older))
    ++ render_history recent ++ "assistant:".
Proof.
  intros H.
  rewrite build_prompt_layout, (last_n_recent 10 older recent H).
  rewrite render_history_app. now rewrite !append_assoc.
Qed.

Section Generate.

Variable route_llm_output : string -> result (string * bool).
Variable post_generate : string -> string -> string -> result (option string).

Local Abbreviation generate := (LLM.generate route_llm_output post_generate).

Local Abbreviation backend_outcome self user_text h :=
  (post_generate (api_endpoint self) (model_name self)
     (build_prompt self (get_history (add_user_message user_text h)))).

(** The exception [e] ends the [try] block: the backend call raises it, or
    the router does on the text of the body the backend returned. *)
Local Abbreviation raised_in_try self user_text h e :=
  (backend_outcome self user_text h = Raise e
   \/ exists response,
        backend_outcome self user_text h = Return response
        /\ route_llm_output (routed_text response) = Raise e).

(** What the history is after [generate], in every outcome. *)
Lemma generate_shape self user_text h :
  match fst (generate self user_text h) with
  | Return answer =>
      snd (generate self user_text h)
      = (h ++ [mk_message "user" user_text;
               mk_message "assistant" answer])%list
  | Raise e =>
      snd (generate self user_text h) = (h ++ [mk_message "user" user_text])%list
      /\ isinstance e RequestException = false
  end.
Proof.
  assert (A : forall a,
             add_assistant_message a (add_user_message user_text h)
             = (h ++ [mk_message "user" user_text;
                      mk_message "assistant" a])%list)
    by (intros a; unfold add_assistant_message, add_user_message;
        now rewrite <- app_assoc).
  destruct (backend_outcome self user_text h) as [response|e] eqn:H.
  - destruct (route_llm_output (routed_text response)) as [routed|e] eqn:Hr.
    + rewrite (generate_routed _ _ _ _ _ _ _ H Hr). cbn [fst snd]. apply A.
    + rewrite (generate_raised _ _ self user_text h e)
        by (right; exists response; now split).
      destruct (isinstance e Timeout); [cbn [fst snd]; apply A|].
      destruct (isinstance e RequestException) eqn:E; cbn [fst snd];
        [apply A | now split].
  - rewrite (generate_raised _ _ self user_text h e) by now left.
    destruct (isinstance e Timeout); [cbn [fst snd]; apply A|].
    destruct (isinstance e RequestException) eqn:E; cbn [fst snd];
      [apply A | now split].
Qed.

(** X9: after [generate], the history is the one before it followed by
    the user message and, exactly when [generate] returns, by one assistant
    entry holding the string returned. When an exception leaves [generate]
    it is not a [RequestException], and the user message stays recorded
    without an answer. *)
Theorem generate_history_shape self user_text h :
  match fst (generate self user_text h) with
  | Return answer =>
      snd (generate self user_text h)
      = (h ++ [mk_message "user" user_text;
               mk_message "assistant" answer])%list
  | Raise e =>
      snd (generate self user_text h) = (h ++ [mk_message "user" user_text])%list
      /\ isinstance e RequestException = false
  end.
Proof. exact (generate_shape self user_text h). Qed.

(** X10: an exception raised inside the [try] block that is not a
    [RequestException], whether by the backend call or by the router,
    propagates out of [generate] unchanged. *)
Theorem generate_propagates self user_text h e :
  raised_in_try self user_text h e ->
  isinstance e RequestException = false ->
  generate self user_text h = (Raise e, add_user_message user_text h).
Proof.
  intros H He. rewrite (generate_raised _ _ _ _ _ _ H), He.
  destruct (isinstance e Timeout) eqn:Et; [|reflexivity].
  apply Timeout_is_RequestException in Et. congruence.
Qed.

(** X11: every [RequestException] raised inside the [try] block is
    answered with a fallback, also when the backend has answered and the
    exception comes from the router: the timeout fallback for an instance
    of [Timeout], the connection fallback for any other, an [HTTPError]
    included. *)
Theorem generate_request_exception_fallback self user_text h e :
  raised_in_try self user_text h e ->
  isinstance e RequestException = true ->
  exists fallback,
    generate self user_text h
    = (Return fallback,
       add_assistant_message fallback (add_user_message user_text h))
    /\ (isinstance e Timeout = true -> fallback = timeout_fallback)
    /\ (isinstance e Timeout = false -> fallback = connection_fallback).
Proof.
  intros H He. rewrite (generate_raised _ _ _ _ _ _ H), He.
  destruct (isinstance e Timeout); eexists;
    (split; [reflexivity|]); split; congruence.
Qed.

(** X13: the prompt [generate] sends always closes with the line of the
    message the user has just sent, followed by [assistant:]; the window
    never cuts the newest message off. *)
Theorem prompt_ends_with_user_message self user_text h :
  exists before,
    build_prompt self (get_history (add_user_message user_text h))
    = before ++ "user: " ++ user_text ++ nl ++ "assistant:".
Proof.
  unfold get_history, add_user_message.
  exists (_build_system_prompt self ++ nl ++ nl
          ++ render_history (last_n 9 h)).
  rewrite (build_prompt_recent self h [mk_message "user" user_text])
    by (cbn; lia).
  cbn [render_history fold_right List.length Nat.sub].
  unfold render_turn. cbn [role content].
  f_equal. now rewrite ?append_assoc, ?append_nil_r.
Qed.

(** X14: once [generate] has returned an answer, the prompt of the next
    call shows that answer as the assistant's line right before the line
    of the new user message. *)
Theorem next_prompt_shows_answer self user_text h answer h' next_text :
  generate self user_text h = (Return answer, h') ->
  exists before,
    build_prompt self (get_history (add_user_message next_text h'))
    = before ++ "assistant: " ++ answer ++ nl
      ++ "user: " ++ next_text ++ nl ++ "assistant:".
Proof.
  intros H. pose proof (generate_shape self user_text h) as S.
  rewrite H in S. cbn [fst snd] in S. subst h'.
  unfold get_history, add_user_message.
  replace ((h ++ [mk_message "user" user_text;
                  mk_message "assistant" answer])
           ++ [mk_message "user" next_text])%list
    with ((h ++ [mk_message "user" user_text])
          ++ [mk_message "assistant" answer;
              mk_message "user" next_text])%list
    by now rewrite <- !app_assoc.
  exists (_build_system_prompt self ++ nl ++ nl
          ++ render_history
               (last_n 8 (h ++ [mk_message "user" user_text])%list)).
  rewrite build_prompt_recent by (cbn; lia).
  cbn [render_history fold_right List.length Nat.sub].
  unfold render_turn. cbn [role content].
  f_equal. now rewrite ?append_assoc, ?append_nil_r.
Qed.

(** X15: a body without a [response] field, and a body whose response is
    nothing but whitespace, both hand the empty string to the router. *)
Theorem generate_blank_response self user_text h response routed :
  backend_outcome self user_text h = Return response ->
  response = None \/ (exists r, response = Some r /\ strip r = EmptyString) ->
  route_llm_output EmptyString = Return routed ->
  generate self user_text h
  = (Return (fst routed),
     add_assistant_message (fst routed) (add_user_message user_text h)).
Proof.
  intros H Hb Hr. apply (generate_routed _ _ _ _ _ response); [exact H|].
  replace (routed_text response) with EmptyString; [exact Hr|].
  unfold routed_text. destruct Hb as [-> | (r & -> & ->)]; reflexivity.
Qed.

(** X16: when the stripped output starts with [assistant:], [Assistant:]
    or [ASSISTANT:], that prefix is cut off, once, and the router is given
    the rest, stripped. *)
Theorem generate_role_echo_removed self user_text h raw p rest routed :
  backend_outcome self user_text h = Return (Some raw) ->
  In p ["assistant:"; "Assistant:"; "ASSISTANT:"] ->
  strip raw = p ++ rest ->
  route_llm_output (strip rest) = Return routed ->
  generate self user_text h
  = (Return (fst routed),
     add_assistant_message (fst routed) (add_user_message user_text h)).
Proof.
  intros H Hp Hs Hr. apply (generate_routed _ _ _ _ _ (Some raw)); [exact H|].
  replace (routed_text (Some raw)) with (strip rest); [exact Hr|].
  unfold routed_text. rewrite Hs.
  destruct Hp as [<-|[<-|[<-|[]]]].
  - cbn [strip_role_prefix]. unfold startswith.
    rewrite prefix_append. now rewrite drop_append.
  - cbn [strip_role_prefix]. unfold startswith.
    change (prefix "assistant:" ("Assistant:" ++ rest)) with false. cbv iota.
    rewrite prefix_append. now rewrite drop_append.
  - cbn [strip_role_prefix]. unfold startswith.
    change (prefix "assistant:" ("ASSISTANT:" ++ rest)) with false.
    change (prefix "Assistant:" ("ASSISTANT:" ++ rest)) with false. cbv iota.
    rewrite prefix_append. now rewrite drop_append.
Qed.

End Generate.

(** X17: whatever came before them, the most recent turns of the
    history, up to ten of them, are shown in order at the very end of the
    prompt, right before the closing [assistant:]. *)
Theorem prompt_closes_with_recent_turns (self : LLMModuleWithFunctions)
        (older recent : list message) :
  List.length recent <= 10 ->
  exists before,
    build_prompt self (older ++ recent)%list
    = before ++ render_history recent ++ "assistant:".
Proof.
  intros H. eexists. exact (build_prompt_recent self older recent H).
Qed.

(** X12: [generate] consults the router on stripped text only: two
    routers that agree on every text without leading or trailing
    whitespace give the same [generate]. *)
Theorem generate_routes_stripped_text
        (route1 route2 : string -> result (string * bool))
        (post_generate : string -> string -> string -> result (option string))
        self user_text h :
  (forall t, strip t = t -> route1 t = route2 t) ->
  LLM.generate route1 post_generate self user_text h
  = LLM.generate route2 post_generate self user_text h.
Proof.
  intros H. unfold LLM.generate.
  destruct (post_generate _ _ _) as [response|e]; cbn [bind]; [|reflexivity].
  fold (routed_text response).
  now rewrite (H _ (routed_text_stripped response)).
Qed.

End LLMMore.

(** ** The further properties at work *)

Module MoreExamples.
Import Conversation LLM PromptLayout Situations.
Import ToolsMore LLMMore.

Lemma search_arxiv_bad_status_witness :
  Tools.search_arxiv arxiv_unavailable malformed_content "quantum computing"
  = Return "Error: arXiv API returned status 503".
Proof.
  apply (search_arxiv_bad_status arxiv_unavailable "quantum computing" 503 tt
           eq_refl).
  discriminate.
Defined.

Lemma search_arxiv_failure_message_witness :
  Tools.search_arxiv arxiv_times_out Scenario.atom_entries "quantum computing"
  = Return "arXiv search timed out. Please try again."
  /\ Tools.search_arxiv Scenario.arxiv_get malformed_content "quantum computing"
     = Return "Error searching arXiv: syntax error: line 1, column 0"
  /\ Tools.search_arxiv arxiv_interrupted Scenario.atom_entries
       "quantum computing"
     = Raise (mk_exception KeyboardInterrupt EmptyString).
Proof.
  split; [|split].
  - apply (search_arxiv_failure_message arxiv_times_out Scenario.atom_entries
             "quantum computing"
             (mk_exception ReadTimeout "Read timed out. (read timeout=10)"));
      [left; reflexivity | reflexivity].
  - apply (search_arxiv_failure_message Scenario.arxiv_get malformed_content
             "quantum computing"
             (mk_exception Exception "syntax error: line 1, column 0"));
      [right; exists tt; split; reflexivity | reflexivity | reflexivity].
  - apply (search_arxiv_failure_message arxiv_interrupted Scenario.atom_entries
             "quantum computing"
             (mk_exception KeyboardInterrupt EmptyString));
      [left; reflexivity | reflexivity].
Defined.

Lemma search_arxiv_listing_witness :
  exists items,
    Tools.search_arxiv Scenario.arxiv_get two_papers "quantum computing"
    = Return ("Found 2 papers on arXiv:" ++ nl ++ nl ++ join (nl ++ nl) items)
    /\ List.length items = 2.
Proof.
  destruct (search_arxiv_listing Scenario.arxiv_get two_papers
              "quantum computing" tt
              [ ("  Quantum Computing: An Overview" ++ nl,
                 "We give a short overview of quantum computing." ++ nl);
                ("Entanglement", repeat_string 40 "word ") ]
              eq_refl eq_refl ltac:(discriminate))
    as (items & H & L & _).
  exists items. simpl in L. rewrite L in H. split; [exact H | exact L].
Defined.

Lemma format_entries_summary_bound_witness :
  exists shown,
    nth_error
      (Tools.format_entries 1
         [ ("Overview", "A short summary.");
           ("Entanglement", repeat_string 40 "word ") ]) 1
    = Some ("2. Entanglement" ++ nl ++ "   Summary: " ++ shown)
    /\ String.length shown = 153.
Proof.
  destruct (format_entries_summary_bound
              [ ("Overview", "A short summary.");
                ("Entanglement", repeat_string 40 "word ") ]
              1 1 "Entanglement" (repeat_string 40 "word ") eq_refl)
    as (shown & H & _ & _ & Hlong).
  exists shown. split; [exact H|].
  apply Hlong. apply Nat.ltb_lt. reflexivity.
Defined.


Lemma clean_expression_prefix_free_witness :
  Tools.clean_expression "sqrt(16) + sin(pi/2)" = "sqrt(16) + sin(pi/2)".
Proof.
  apply clean_expression_prefix_free; reflexivity.
Defined.

Lemma generate_propagates_witness :
  LLM.generate plain_router backend_answers_list llm_module_with_functions
    "What is 2+2?" []
  = (Raise (mk_exception AttributeError "'list' object has no attribute 'get'"),
     [mk_message "user" "What is 2+2?"])
  /\ LLM.generate router_breaks Scenario.backend_answers
       llm_module_with_functions "What is 2+2?" []
     = (Raise (mk_exception TypeError "unexpected keyword argument"),
        [mk_message "user" "What is 2+2?"]).
Proof.
  split.
  - apply (generate_propagates plain_router backend_answers_list);
      [left; reflexivity | reflexivity].
  - apply (generate_propagates router_breaks Scenario.backend_answers);
      [right; eexists; split; reflexivity | reflexivity].
Defined.

Lemma generate_request_exception_fallback_witness :
  LLM.generate router_times_out Scenario.backend_answers
    llm_module_with_functions "What is 2+2?" []
  = (Return timeout_fallback,
     [mk_message "user" "What is 2+2?"; mk_message "assistant" timeout_fallback]).
Proof.
  destruct (generate_request_exception_fallback router_times_out
              Scenario.backend_answers llm_module_with_functions
              "What is 2+2?" []
              (mk_exception ReadTimeout "Read timed out. (read timeout=10)"))
    as (fallback & H & Ht & _);
    [right; eexists; split; reflexivity | reflexivity |].
  rewrite (Ht eq_refl) in H. exact H.
Defined.

Lemma generate_routes_stripped_text_witness :
  LLM.generate plain_router backend_echoes_role llm_module_with_functions
    "What is the capital of Canada?" []
  = LLM.generate stripping_router backend_echoes_role
      llm_module_with_functions "What is the capital of Canada?" [].
Proof.
  apply generate_routes_stripped_text.
  intros t H. unfold plain_router, stripping_router. now rewrite H.
Defined.

Lemma next_prompt_shows_answer_witness :
  exists before,
    build_prompt llm_module_with_functions
      [ mk_message "user" "What is 2+2?";
        mk_message "assistant" "The result is: 2+2";
        mk_message "user" "And 3+3?" ]
    = before ++ "assistant: The result is: 2+2" ++ nl
      ++ "user: And 3+3?" ++ nl ++ "assistant:".
Proof.
  apply (next_prompt_shows_answer Scenario.route_llm_output
           Scenario.backend_answers llm_module_with_functions
           "What is 2+2?" [] "The result is: 2+2"
           [ mk_message "user" "What is 2+2?";
             mk_message "assistant" "The result is: 2+2" ]
           "And 3+3?").
  vm_compute. reflexivity.
Defined.

Lemma prompt_closes_with_recent_turns_witness :
  exists before,
    build_prompt llm_module_with_functions
      (snd Scenario.twelve_messages
       ++ [ mk_message "user" "thirteen"; mk_message "assistant" "fourteen";
            mk_message "user" "fifteen" ])%list
    = before ++ "user: thirteen" ++ nl ++ "assistant: fourteen" ++ nl
      ++ "user: fifteen" ++ nl ++ "assistant:".
Proof.
  apply (prompt_closes_with_recent_turns llm_module_with_functions
           (snd Scenario.twelve_messages)
           [ mk_message "user" "thirteen"; mk_message "assistant" "fourteen";
             mk_message "user" "fifteen" ]).
  cbn. lia.
Defined.

Lemma generate_blank_response_witness :
  LLM.generate plain_router backend_without_response
    llm_module_with_functions "Hello?" []
  = (Return EmptyString,
     [mk_message "user" "Hello?"; mk_message "assistant" EmptyString]).
Proof.
  apply (generate_blank_response plain_router backend_without_response
           llm_module_with_functions "Hello?" [] None (EmptyString, false));
    [reflexivity | left; reflexivity | reflexivity].
Defined.

Lemma generate_role_echo_removed_witness :
  LLM.generate plain_router backend_echoes_role llm_module_with_functions
    "What is the capital of Canada?" []
  = (Return "The capital of Canada is Ottawa.",
     [mk_message "user" "What is the capital of Canada?";
      mk_message "assistant" "The capital of Canada is Ottawa."]).
Proof.
  apply (generate_role_echo_removed plain_router backend_echoes_role
           llm_module_with_functions "What is the capital of Canada?" []
           ("  Assistant: The capital of Canada is Ottawa." ++ nl)
           "Assistant:" " The capital of Canada is Ottawa."
           ("The capital of Canada is Ottawa.", false));
    [reflexivity | right; left; reflexivity | reflexivity | reflexivity].
Defined.

End MoreExamples.
